(** * oswatcher: the capture session of [oswatcher/capture.py]

    A shallow embedding of the capture lifecycle: the hook configuration
    as Python values, the ledger store as a labelled graph, the ephemeral
    context as two scoped resources, and the session as a state-and-exception
    monad over the trace of calls made to the collaborators (libvirt, see,
    py2neo, the file system). *)

From Stdlib Require Import ZArith Ascii String List Lia.
From stdpp Require Import base decidable option list gmap sets fin_sets strings.

Local Open Scope string_scope.
Local Open Scope list_scope.
Local Open Scope Z_scope.
Set Warnings "-register-all".

(** ** Exceptions and results *)

(** The exceptions the session can see.  [ExternalError] stands for an
    exception raised inside a collaborator (libvirt.libvirtError, an
    exception of a hook, a py2neo failure), tagged with its cause. *)
Inductive exn : Type :=
| KeyboardInterrupt
| JSONDecodeError
| FileNotFoundError
| TypeError
| KeyError (key : string)
| AttributeError
| ExternalError (cause : string).

Inductive result (A : Type) : Type :=
| Ok (a : A)
| Raise (e : exn).
Arguments Ok {A} a.
Arguments Raise {A} e.

Definition rbind {A B} (r : result A) (k : A -> result B) : result B :=
  match r with
  | Ok a => k a
  | Raise e => Raise e
  end.

Definition is_interrupt (e : exn) : bool :=
  match e with
  | KeyboardInterrupt => true
  | _ => false
  end.

(** ** Python values

    What [json.load] can return (numbers restricted to integers), plus the
    two objects the coordinator stores into the [neo4j] dictionary: the
    [Graph] handle and the [OS] entity, identified by its node identity. *)
Inductive pyval : Type :=
| PNone
| PBool (b : bool)
| PInt (z : Z)
| PStr (s : string)
| PList (xs : list pyval)
| PDict (kvs : list (string * pyval))
| PGraph
| POS (identity : nat).

Definition pdict := list (string * pyval).

(** [d.get(k)] on the items of a dictionary. *)
Fixpoint dict_get (k : string) (kvs : pdict) : option pyval :=
  match kvs with
  | [] => None
  | (k', v) :: rest => if String.eqb k k' then Some v else dict_get k rest
  end.

(** [d[k] = v]: overwrite in place, or append a new item. *)
Fixpoint dict_set (k : string) (v : pyval) (kvs : pdict) : pdict :=
  match kvs with
  | [] => [(k, v)]
  | (k', v') :: rest =>
      if String.eqb k k' then (k, v) :: rest else (k', v') :: dict_set k v rest
  end.

Definition is_str (k : string) (v : pyval) : bool :=
  match v with
  | PStr s => String.eqb k s
  | _ => false
  end.

(** [k in c] for a string [k]: key membership on a dict, element membership
    on a list, substring test on a str, TypeError on the rest. *)
Definition py_contains (k : string) (c : pyval) : result bool :=
  match c with
  | PDict kvs => Ok (match dict_get k kvs with Some _ => true | None => false end)
  | PList xs => Ok (existsb (is_str k) xs)
  | PStr s => Ok (match String.index 0 k s with Some _ => true | None => false end)
  | _ => Raise TypeError
  end.

(** [c[k]] for a string [k]. *)
Definition py_getitem (k : string) (c : pyval) : result pyval :=
  match c with
  | PDict kvs =>
      match dict_get k kvs with
      | Some v => Ok v
      | None => Raise (KeyError k)
      end
  | _ => Raise TypeError
  end.

(** [c[k] = v] for a string [k]; returns the container after the store. *)
Definition py_setitem (k : string) (v : pyval) (c : pyval) : result pyval :=
  match c with
  | PDict kvs => Ok (PDict (dict_set k v kvs))
  | _ => Raise TypeError
  end.

(** [c.get(k, default)]: only dictionaries have the method. *)
Definition py_get (k : string) (default : pyval) (c : pyval) : result pyval :=
  match c with
  | PDict kvs =>
      match dict_get k kvs with
      | Some v => Ok v
      | None => Ok default
      end
  | _ => Raise AttributeError
  end.

Notation "'let?' x := c 'in' k" := (rbind c (fun x => k))
  (at level 10, x name, c at level 200, k at level 200, only parsing).

(** Truth value of a Python value, as [if v:] and [not v] take it. *)
Definition truthy (v : pyval) : bool :=
  match v with
  | PNone => false
  | PBool b => b
  | PInt z => negb (z =? 0)
  | PStr s => negb (String.eqb s "")
  | PList xs => match xs with [] => false | _ => true end
  | PDict kvs => match kvs with [] => false | _ => true end
  | PGraph => true
  | POS _ => true
  end.

(** [v > 0]: integers compare, [bool] is a subclass of [int], every other
    type raises TypeError against an int. *)
Definition py_gt_zero (v : pyval) : result bool :=
  match v with
  | PInt z => Ok (0 <? z)
  | PBool b => Ok b
  | _ => Raise TypeError
  end.

(** The number of seconds [time.sleep] is asked for. *)
Definition py_seconds (v : pyval) : Z :=
  match v with
  | PInt z => z
  | PBool true => 1
  | _ => 0
  end.

(** ** Resolving the hook configuration (capture_main, lines 129-139) *)

Definition DESKTOP_READY_DELAY : Z := 180.

(** [hooks_config['configuration'][k] = v]: the nested dictionary is
    mutated in place, so the store is visible through [hooks_config]. *)
Definition set_config_key (k : string) (v : pyval) (hooks_config : pyval)
  : result pyval :=
  let? cfg := py_getitem "configuration" hooks_config in
  let? cfg' := py_setitem k v cfg in
  py_setitem "configuration" cfg' hooks_config.

Definition resolve_config (vm_name : string) (debug : bool)
    (hooks_config : pyval) : result pyval :=
  let? present := py_contains "configuration" hooks_config in
  let? hooks_config := (if present then Ok hooks_config
                   else py_setitem "configuration" (PDict []) hooks_config) in
  (* use default desktop ready delay if unset *)
  let? cfg := py_getitem "configuration" hooks_config in
  let? has_delay := py_contains "desktop_ready_delay" cfg in
  let? hooks_config := (if has_delay then Ok hooks_config
                   else set_config_key "desktop_ready_delay"
                          (PInt DESKTOP_READY_DELAY) hooks_config) in
  (* insert vm_name object *)
  let? hooks_config := set_config_key "domain_name" (PStr vm_name) hooks_config in
  (* insert debug flag *)
  set_config_key "debug" (PBool debug) hooks_config.

(** The configuration object once lines 133-139 have run on one that had
    no delay. *)
Definition with_defaults (vm : string) (dbg : bool) (cfg : pdict) : pdict :=
  dict_set "debug" (PBool dbg)
    (dict_set "domain_name" (PStr vm)
       (dict_set "desktop_ready_delay" (PInt DESKTOP_READY_DELAY) cfg)).

(** ** The ledger store

    A property graph: nodes with an identity, the [OS] label or not, and a
    [name] property; relationships as pairs of identities (start, end). *)
Record node : Type := Node {
  nid : nat;
  is_os : bool;
  nname : string
}.

Record graph : Type := Graph {
  nodes : list node;
  rels : list (nat * nat)
}.

Global Instance node_eq_dec : EqDecision node.
Proof. solve_decision. Defined.

Definition empty_graph : graph := Graph [] [].

(** Modelled from the spec: the [OS] class of oswatcher.model, a graph
    object with the label OS whose [name] attribute is the VM name ("Capture
    Entity (OS node) ... keyed by VM name"). *)
Definition os_named (vm_name : string) (n : node) : bool :=
  is_os n && String.eqb (nname n) vm_name.

(** The where clause of line 155, ["_.name = '{}'".format(vm_name)]: the
    name is spliced between the single quotes as it is. *)
Definition name_clause (vm_name : string) : string :=
  String.append "_.name = '" (String.append vm_name "'").

(** The WHERE line of SUBGRAPH_DELETE_OS once formatted (lines 24, 162 and
    192): the name is spliced between the double quotes as it is. *)
Definition double_quote : string := String "034"%char EmptyString.

Definition delete_clause (vm_name : string) : string :=
  String.append "o.name = "
    (String.append double_quote (String.append vm_name double_quote)).

(** [OS.match(graph).where(clause).first()]: the first node the store
    selects, if any; [selects] is the label OS and the clause as the store
    reads it. *)
Definition os_match_first (selects : node -> bool) (g : graph) : option node :=
  List.find selects (nodes g).

(** [graph.create(os_node)]: the store picks an identity no node has. *)
Definition fresh_id (g : graph) : nat :=
  S (foldr Nat.max 0%nat (map nid (nodes g))).

Definition graph_create (vm_name : string) (g : graph) : graph :=
  Graph (nodes g ++ [Node (fresh_id g) true vm_name]) (rels g).

(** *** SUBGRAPH_DELETE_OS

    [MATCH (o:OS)-[*0..]-(x) WHERE ... WITH DISTINCT x DETACH DELETE x]:
    [o] ranges over the nodes the store selects (the label OS and the WHERE
    line as the store reads it), [x] over the nodes joined to one of them
    by a path of any length (zero included) whose relationships are
    followed in either direction. *)
Definition os_roots (selects : node -> bool) (g : graph) : gset nat :=
  list_to_set (map nid (List.filter selects (nodes g))).

(** One more relationship: the far end of every relationship that touches
    the set joins it. *)
Definition grow (g : graph) (s : gset nat) : gset nat :=
  foldr (fun (r : nat * nat) acc =>
           (if decide (r.1 ∈ s) then {[ r.2 ]} else ∅) ∪
           (if decide (r.2 ∈ s) then {[ r.1 ]} else ∅) ∪ acc)
        s (rels g).

Fixpoint grow_n (g : graph) (n : nat) (s : gset nat) : gset nat :=
  match n with
  | O => s
  | S k => grow_n g k (grow g s)
  end.

Definition endpoints (g : graph) : gset nat :=
  list_to_set (map fst (rels g)) ∪ list_to_set (map snd (rels g)).

(** The nodes matched as [x]: paths are at most as long as there are
    identities to reach. *)
Definition matched (selects : node -> bool) (g : graph) : gset nat :=
  grow_n g (size (endpoints g)) (os_roots selects g).

(** DETACH DELETE: the matched nodes go, with every relationship that has
    one of them at an end. *)
Definition subgraph_delete_os (selects : node -> bool) (g : graph) : graph :=
  let dead := matched selects g in
  Graph (filter (fun n => nid n ∉ dead) (nodes g))
        (filter (fun r : nat * nat => (r.1 ∉ dead) ∧ (r.2 ∉ dead)) (rels g)).

(** The declarative reading of the pattern [(o)-[*0..]-(x)]. *)
Definition adjacent (g : graph) (a b : nat) : Prop :=
  (a, b) ∈ rels g ∨ (b, a) ∈ rels g.

Inductive joined (g : graph) : nat -> nat -> Prop :=
| joined_here a : joined g a a
| joined_step a b c : joined g a b -> adjacent g b c -> joined g a c.

(** ** The world outside the coordinator *)

Inductive level : Type := DEBUG | INFO | WARNING | ERROR.

(** Every call the session makes to something outside capture.py, in the
    vocabulary of the source. *)
Inductive call : Type :=
| InitLogger (debug : bool)
| Log (lvl : level) (msg : string)
| OpenFile (path : string)
| JsonLoad
| CloseFile
| GraphConnect
| GraphDeleteAll
| MatchFirst (vm_name : string)
| RunSubgraphDelete (vm_name : string)
| GraphCreate (vm_name : string)
| GraphPush (identity : nat)
| NamedTemporaryFile
| LibvirtOpen (uri : string)
| LookupByName (vm_name : string)
| XMLDesc
| TmpWrite
| TmpFlush
| GetHardDrivePath
| TemporaryDirectory
| ContextFactoryInit
| EnvironmentInit (hooks_config : pyval)
| EnvironmentEnter
| EnvironmentExit
| Trigger (point : string)
| Poweron
| Poweroff
| Sleep (seconds : Z)
| StorageCleanup
| TmpClose.

(** What the path of the hook configuration holds. *)
Inductive file_status : Type :=
| Missing
| Unparsable
| Parsed (document : pyval).

(** The collaborators, as the session sees them: what the configuration
    path holds; whether a call raises, given the calls made so far (an
    operator's interrupt is a call raising KeyboardInterrupt); what the hooks
    do to the store while the see environment or context runs a call; what
    [graph.push] of the entity does to the store; whether a where clause,
    as the text the store receives, holds of a node. *)
Record World : Type := {
  hooks_file : string -> file_status;
  raises : list call -> call -> option exn;
  hooks_effect : list call -> call -> graph -> graph;
  push_store : nat -> graph -> graph;
  where_holds : string -> node -> bool
}.

(** A scoped resource of the ephemeral context. *)
Inductive resource : Type := Absent | Live | Released.

Record state : Type := State {
  trace : list call;
  store : graph;
  tmp_file : resource;
  tmp_dir : resource
}.

Definition record (c : call) (st : state) : state :=
  State (trace st ++ [c]) (store st) (tmp_file st) (tmp_dir st).
Definition set_store (g : graph) (st : state) : state :=
  State (trace st) g (tmp_file st) (tmp_dir st).
Definition set_tmp_file (r : resource) (st : state) : state :=
  State (trace st) (store st) r (tmp_dir st).
Definition set_tmp_dir (r : resource) (st : state) : state :=
  State (trace st) (store st) (tmp_file st) r.

(** ** The session monad: state passing with Python exceptions *)

Definition M (A : Type) : Type := state -> result A * state.

Definition ret {A} (a : A) : M A := fun st => (Ok a, st).

Definition bind {A B} (m : M A) (k : A -> M B) : M B := fun st =>
  match m st with
  | (Ok a, st1) => k a st1
  | (Raise e, st1) => (Raise e, st1)
  end.

Definition lift {A} (r : result A) : M A := fun st => (r, st).

Definition modify (f : state -> state) : M unit := fun st => (Ok tt, f st).

Notation "'let!' x := c 'in' k" := (bind c (fun x => k))
  (at level 10, x name, c at level 200, k at level 200, only parsing).
Notation "c ;; k" := (bind c (fun _ => k))
  (at level 100, k at level 200, right associativity, only parsing).

(** A [with] statement whose [__exit__] returns None: the exit runs however
    the body ends, and an exception of the exit replaces the body's. *)
Definition with_exit {A} (exit : M unit) (body : M A) : M A := fun st =>
  let (r, st1) := body st in
  match exit st1 with
  | (Ok _, st2) => (r, st2)
  | (Raise e, st2) => (Raise e, st2)
  end.

Section Session.

Variable w : World.

(** A call that only leaves its mark: the logging setup and the logging
    calls. *)
Definition note (c : call) : M unit := fun st => (Ok tt, record c st).

Definition log (lvl : level) (msg : string) : M unit := note (Log lvl msg).

(** A call to a collaborator: recorded, then it returns or raises. *)
Definition ext (c : call) : M unit := fun st =>
  match raises w (trace st) c with
  | None => (Ok tt, record c st)
  | Some e => (Raise e, record c st)
  end.

(** A call into the see environment or context: the hooks it runs may write
    to the store, whether or not the call then raises. *)
Definition see_call (c : call) : M unit := fun st =>
  let st1 := set_store (hooks_effect w (trace st) c (store st)) (record c st) in
  match raises w (trace st) c with
  | None => (Ok tt, st1)
  | Some e => (Raise e, st1)
  end.

(** A py2neo call: the store changes when the call returns. *)
Definition graph_op (c : call) (f : graph -> graph) : M unit :=
  ext c ;; modify (fun st => set_store (f (store st)) st).

(** ** QEMUDomainContextFactory *)

(** Modelled from the spec: [get_hard_drive_path] of oswatcher.utils, the
    helper that resolves the primary disk image path of the domain and fails
    when the path is not resolvable.  The session only depends on whether
    it returns. *)
Definition get_hard_drive_path : M unit := ext GetHardDrivePath.

(** [__init__] (lines 32-65): the temporary file comes first, the
    temporary directory after the three calls to the hypervisor side. *)
Definition factory_init (domain_name uri : string) : M unit :=
  ext NamedTemporaryFile ;;
  modify (set_tmp_file Live) ;;
  ext (LibvirtOpen uri) ;;
  ext (LookupByName domain_name) ;;
  ext XMLDesc ;;
  ext TmpWrite ;;
  ext TmpFlush ;;
  get_hard_drive_path ;;
  ext TemporaryDirectory ;;
  modify (set_tmp_dir Live) ;;
  ext ContextFactoryInit.

(** [__exit__] (lines 70-72). *)
Definition factory_exit : M unit :=
  ext StorageCleanup ;;
  modify (set_tmp_dir Released) ;;
  ext TmpClose ;;
  modify (set_tmp_file Released).

(** ** protocol (lines 75-93) *)
Definition protocol (hooks_config : pyval) : M unit :=
  let! config := lift (py_getitem "configuration" hooks_config) in
  see_call (Trigger "protocol_start") ;;
  see_call (Trigger "offline") ;;
  let! desktop_ready_delay := lift (py_getitem "desktop_ready_delay" config) in
  let! positive := lift (py_gt_zero desktop_ready_delay) in
  (if positive then
     (* start domain *)
     log INFO "Starting the domain" ;;
     see_call Poweron ;;
     (* wait until desktop is ready *)
     log DEBUG "Waiting %d seconds for desktop to be ready" ;;
     ext (Sleep (py_seconds desktop_ready_delay)) ;;
     see_call (Trigger "desktop_ready") ;;
     (* shutdown *)
     log INFO "Shutting down the domain" ;;
     see_call Poweroff
   else ret tt) ;;
  see_call (Trigger "protocol_end").

(** ** capture_main (lines 112-198) *)

(** The docopt arguments the function reads. *)
Record Args : Type := {
  vm_name : string;
  connection : string;
  debug : bool;
  plugins_configuration : string
}.

(** Lines 121-127: [None] is the early [return] after the parse error. *)
Definition load_hooks (path : string) : M (option pyval) := fun st =>
  let st1 := record (OpenFile path) st in
  match hooks_file w path with
  | Missing => (Raise FileNotFoundError, st1)
  | Unparsable =>
      (Ok None,
       record CloseFile
         (record (Log ERROR "Failed to parse %s: Invalid JSON")
            (record JsonLoad st1)))
  | Parsed document => (Ok (Some document), record CloseFile (record JsonLoad st1))
  end.

(** The nodes a query selects: the label OS of the pattern, and the where
    clause as the store reads the text. *)
Definition os_where (clause : string) (n : node) : bool :=
  is_os n && where_holds w clause n.

(** The selection of line 155 and the selection of lines 22-27, for the
    name spliced into each. *)
Definition os_found (vm : string) : node -> bool := os_where (name_clause vm).
Definition os_rooted (vm : string) : node -> bool := os_where (delete_clause vm).

(** [graph.run(SUBGRAPH_DELETE_OS.format(vm_name))], on the store. *)
Definition run_subgraph_delete (vm : string) (g : graph) : graph :=
  subgraph_delete_os (os_rooted vm) g.

(** [os_match.first()]: a query against the store. *)
Definition match_first (vm : string) : M (option node) :=
  ext (MatchFirst vm) ;;
  fun st => (Ok (os_match_first (os_found vm) (store st)), st).

(** [graph.create(os_node)], returning the identity the node is bound to. *)
Definition create_os (vm : string) : M nat := fun st =>
  let identity := fresh_id (store st) in
  (graph_op (GraphCreate vm) (graph_create vm) ;; ret identity) st.

(** Lines 144-170, entered when [neo4j.get('enabled')] is true.  [None] is
    the early [return] of line 158; otherwise the [neo4j] dictionary comes
    back with the entity and the graph handle stored in it. *)
Definition ledger_admission (vm : string) (neo4j : pyval) : M (option pyval) :=
  log INFO "Connect to Neo4j DB" ;;
  ext GraphConnect ;;
  (* delete entire graph ? *)
  let! delete := lift (py_get "delete" PNone neo4j) in
  (if truthy delete then
     log INFO "Deleting all nodes in graph database" ;;
     graph_op GraphDeleteAll (fun _ => empty_graph)
   else ret tt) ;;
  (* replace existing OS in Neo4j ? *)
  let! replace := lift (py_get "replace" (PBool false) neo4j) in
  let! found := (if negb (truthy replace) then match_first vm else ret None) in
  match found with
  | Some _ =>
      log INFO "OS %s already inserted, exiting" ;;
      ret None
  | None =>
      let! previous := match_first vm in
      match previous with
      | Some _ =>
          (* replace = True and an OS already exists *)
          log INFO "Deleting previous OS %s" ;;
          graph_op (RunSubgraphDelete vm) (run_subgraph_delete vm)
      | None => ret tt
      end ;;
      (* init new OS node; create it already, so transactions will work
         in hooks *)
      log INFO "Creating OS node %s" ;;
      let! identity := create_os vm in
      let! neo4j := lift (py_setitem "OS" (POS identity) neo4j) in
      let! neo4j := lift (py_setitem "graph" PGraph neo4j) in
      ret (Some neo4j)
  end.

(** Lines 174-183: the two nested [with] statements around the protocol.
    The two reads of the timer and the formatting of the duration have no
    effect on the session and only show as the logging call. *)
Definition run_environment (hooks_config : pyval) : M unit :=
  see_call (EnvironmentInit hooks_config) ;;
  see_call EnvironmentEnter ;;
  with_exit (see_call EnvironmentExit)
    (log INFO "Capturing %s" ;;
     protocol hooks_config ;;
     log INFO "Capture duration: %s").

Definition capture_body (vm uri : string) (hooks_config : pyval) : M unit :=
  factory_init vm uri ;;
  with_exit factory_exit (run_environment hooks_config).

(** Lines 185-192: the handler of KeyboardInterrupt. *)
Definition rollback (vm : string) (neo4j : pyval) : M unit :=
  let! enabled := lift (py_get "enabled" PNone neo4j) in
  if truthy enabled then
    log WARNING "SIGINT received" ;;
    log INFO "cleanup: removing OS node" ;;
    let! graph := lift (py_get "graph" PNone neo4j) in
    let! os_node := lift (py_get "OS" PNone neo4j) in
    match graph, os_node with
    | PNone, _ | _, PNone => ret tt
    | _, _ => graph_op (RunSubgraphDelete vm) (run_subgraph_delete vm)
    end
  else ret tt.

(** Lines 194-198: push OS node updates. *)
Definition push_updates (neo4j : pyval) : M unit :=
  let! enabled := lift (py_get "enabled" PNone neo4j) in
  if truthy enabled then
    let! os_node := lift (py_getitem "OS" neo4j) in
    let! graph := lift (py_getitem "graph" neo4j) in
    match os_node with
    | POS identity => graph_op (GraphPush identity) (push_store w identity)
    | _ => lift (Raise AttributeError)
    end
  else ret tt.

(** Lines 173-198: the [try], its handler, and what follows the statement.
    Only KeyboardInterrupt is handled; after the handler the function goes
    on to the push. *)
Definition reconcile (vm : string) (neo4j : pyval) (body : M unit) : M unit :=
  fun st =>
  match body st with
  | (Ok _, st1) => push_updates neo4j st1
  | (Raise e, st1) =>
      if is_interrupt e then (rollback vm neo4j ;; push_updates neo4j) st1
      else (Raise e, st1)
  end.

(** The [neo4j] dictionary is the one inside [hooks_config] when the key is
    there: what lines 169-170 store is seen through the configuration. *)
Definition sync_neo4j (neo4j : pyval) (hooks_config : pyval) : result pyval :=
  let? cfg := py_getitem "configuration" hooks_config in
  let? aliased := py_contains "neo4j" cfg in
  if aliased then set_config_key "neo4j" neo4j hooks_config else Ok hooks_config.

Definition capture_main (args : Args) : M unit :=
  let vm := vm_name args in
  note (InitLogger (debug args)) ;;
  (* load hooks.json *)
  let! loaded := load_hooks (plugins_configuration args) in
  match loaded with
  | None => ret tt
  | Some hooks_config =>
      let! hooks_config := lift (resolve_config vm (debug args) hooks_config) in
      (* Neo4j required ? *)
      let! cfg := lift (py_getitem "configuration" hooks_config) in
      let! neo4j := lift (py_get "neo4j" (PDict []) cfg) in
      let! enabled := lift (py_get "enabled" PNone neo4j) in
      let! entry :=
        (if truthy enabled then ledger_admission vm neo4j
         else ret (Some neo4j)) in
      match entry with
      | None => ret tt
      | Some neo4j =>
          let! hooks_config := lift (sync_neo4j neo4j hooks_config) in
          (* Run the protocol *)
          reconcile vm neo4j (capture_body vm (connection args) hooks_config)
      end
  end.

End Session.

(** ** Observing a run *)

(** The calls a computation makes when started in [st]. *)
Definition calls_of {A} (m : M A) (st : state) : list call :=
  drop (length (trace st)) (trace (m st).2).

(** The protocol points among the calls made on the context: the named
    trigger points, and the two power operations under their names. *)
Definition phase_of (c : call) : option string :=
  match c with
  | Trigger point => Some point
  | Poweron => Some "poweron"
  | Poweroff => Some "poweroff"
  | _ => None
  end.

Definition phases (calls : list call) : list string := omap phase_of calls.

Definition is_protocol_call (c : call) : bool :=
  match c with
  | Trigger _ | Poweron | Poweroff | Sleep _ => true
  | _ => false
  end.

(** The hooks and the context return from every call of the protocol. *)
Definition protocol_undisturbed (w : World) : Prop :=
  forall history c, is_protocol_call c = true -> raises w history c = None.

(** The calls of the driver when none of them raises: the short run, and
    the run with the power cycle. *)
Definition short_run : list call :=
  [Trigger "protocol_start"; Trigger "offline"; Trigger "protocol_end"].

Definition power_cycle_run (seconds : Z) : list call :=
  [Trigger "protocol_start"; Trigger "offline";
   Log INFO "Starting the domain"; Poweron;
   Log DEBUG "Waiting %d seconds for desktop to be ready"; Sleep seconds;
   Trigger "desktop_ready";
   Log INFO "Shutting down the domain"; Poweroff;
   Trigger "protocol_end"].

(** [neo4j.get(k)] read as a condition: a missing key is false. *)
Definition flag (k : string) (neo4j : pdict) : bool :=
  match dict_get k neo4j with
  | Some v => truthy v
  | None => false
  end.

Definition is_graph_call (c : call) : bool :=
  match c with
  | GraphConnect | GraphDeleteAll | MatchFirst _ | RunSubgraphDelete _
  | GraphCreate _ | GraphPush _ => true
  | _ => false
  end.

(** The store answers every py2neo call. *)
Definition ledger_reachable (w : World) : Prop :=
  forall history c, is_graph_call c = true -> raises w history c = None.

(** [graph.push] writes attributes of the entity: it adds no node and
    changes no label or name. *)
Definition push_adds_nothing (w : World) : Prop :=
  forall identity g n, n ∈ nodes (push_store w identity g) -> n ∈ nodes g.

(** The release of the context, lines 71-72, does not itself fail. *)
Definition release_returns (w : World) : Prop :=
  forall history,
    raises w history StorageCleanup = None ∧ raises w history TmpClose = None.

(** The hooks do not write to the store. *)
Definition hooks_inert (w : World) : Prop :=
  forall history c g, hooks_effect w history c g = g.

(** The two scoped resources of the ephemeral context. *)
Definition resources (st : state) : resource * resource :=
  (tmp_file st, tmp_dir st).

(** A computation leaves an observation of the state as it found it. *)
Definition keeps {X A} (f : state -> X) (m : M A) : Prop :=
  forall st, f (m st).2 = f st.

(** A computation only adds calls to the trace, all of one kind. *)
Definition only {A} (kind : call -> Prop) (m : M A) : Prop :=
  forall st, exists added,
    trace (m st).2 = trace st ++ added ∧ Forall kind added.

(** Calls that are not calls to the store. *)
Definition off_ledger (c : call) : Prop := is_graph_call c = false.

(** The calls of capture_main up to the admission check. *)
Definition loading (args : Args) : list call :=
  [InitLogger (debug args); OpenFile (plugins_configuration args);
   JsonLoad; CloseFile].

Definition connecting (delete : bool) : list call :=
  [Log INFO "Connect to Neo4j DB"; GraphConnect] ++
  (if delete then [Log INFO "Deleting all nodes in graph database";
                   GraphDeleteAll]
   else []).

(** The calls of the admission check, by the replace flag and by whether an
    entity of the name is in the store. *)
Definition admission_calls (vm : string) (replace existing : bool) : list call :=
  match replace, existing with
  | false, true => [MatchFirst vm; Log INFO "OS %s already inserted, exiting"]
  | false, false =>
      [MatchFirst vm; MatchFirst vm;
       Log INFO "Creating OS node %s"; GraphCreate vm]
  | true, false => [MatchFirst vm; Log INFO "Creating OS node %s"; GraphCreate vm]
  | true, true =>
      [MatchFirst vm; Log INFO "Deleting previous OS %s"; RunSubgraphDelete vm;
       Log INFO "Creating OS node %s"; GraphCreate vm]
  end.

Definition is_some {A} (o : option A) : bool :=
  match o with Some _ => true | None => false end.

(** The store a session starts its protocol on. *)
Definition cleared (selects : node -> bool) (existing : bool) (g : graph)
  : graph :=
  if existing then subgraph_delete_os selects g else g.

(** The [neo4j] dictionary after lines 169-170. *)
Definition bound (identity : nat) (neo4j : pdict) : pdict :=
  dict_set "graph" PGraph (dict_set "OS" (POS identity) neo4j).

(** The number of nodes of the store a selection holds of; with
    [os_named vm], the number of entities of the name. *)
Definition entities (selects : node -> bool) (g : graph) : nat :=
  length (List.filter selects (nodes g)).

(** The store reads the two clauses formatted for a name as a comparison
    of the node's name with that name: what a name without quote or
    backslash characters comes to. *)
Definition reads_name (w : World) (vm : string) : Prop :=
  forall n,
    where_holds w (name_clause vm) n = String.eqb (nname n) vm ∧
    where_holds w (delete_clause vm) n = String.eqb (nname n) vm.

(** *** A reader of where clauses

    Cypher is not part of capture.py: in the properties the store's reading
    of a clause is the field [where_holds] of the world.  The stores of the
    scenarios read a clause as Cypher does on the fragment the two format
    strings can produce: string literals in single or double quotes with
    backslash escapes, the [name] property of the node, comparisons by [=],
    joined by [OR]. *)
Inductive token : Type :=
| TName
| TLit (s : string)
| TEq
| TOr
| TBad.

Inductive lexing : Type :=
| Outside
| Word (seen : string)
| Literal (quote : ascii) (seen : string).

Definition is_quote (c : ascii) : bool :=
  Ascii.eqb c "'"%char || Ascii.eqb c "034"%char.

Definition word_token (seen : string) : token :=
  if String.eqb seen "OR" then TOr
  else if String.eqb seen "_.name" || String.eqb seen "o.name" then TName
  else TBad.

Definition snoc (seen : string) (c : ascii) : string :=
  String.append seen (String c EmptyString).

Fixpoint lex (mode : lexing) (text : string) : list token :=
  match mode, text with
  | Outside, EmptyString => []
  | Word seen, EmptyString => [word_token seen]
  | Literal _ _, EmptyString => [TBad]
  | Outside, String c rest =>
      if Ascii.eqb c " "%char then lex Outside rest
      else if Ascii.eqb c "="%char then TEq :: lex Outside rest
      else if is_quote c then lex (Literal c EmptyString) rest
      else lex (Word (String c EmptyString)) rest
  | Word seen, String c rest =>
      if Ascii.eqb c " "%char then word_token seen :: lex Outside rest
      else if Ascii.eqb c "="%char then word_token seen :: TEq :: lex Outside rest
      else if is_quote c then word_token seen :: lex (Literal c EmptyString) rest
      else lex (Word (snoc seen c)) rest
  | Literal quote seen, String c rest =>
      if Ascii.eqb c quote then TLit seen :: lex Outside rest
      else if Ascii.eqb c "\"%char then
        match rest with
        | String escaped rest' => lex (Literal quote (snoc seen escaped)) rest'
        | EmptyString => [TBad]
        end
      else lex (Literal quote (snoc seen c)) rest
  end.

Definition operand (name : string) (t : token) : option string :=
  match t with
  | TName => Some name
  | TLit s => Some s
  | _ => None
  end.

(** A disjunction of comparisons; a text outside the fragment holds of no
    node. *)
Fixpoint holds_of (name : string) (tokens : list token) : bool :=
  match tokens with
  | a :: TEq :: b :: more =>
      match operand name a, operand name b with
      | Some x, Some y =>
          match more with
          | [] => String.eqb x y
          | TOr :: others => String.eqb x y || holds_of name others
          | _ => false
          end
      | _, _ => false
      end
  | _ => false
  end.

Definition cypher_where (clause : string) (n : node) : bool :=
  holds_of (nname n) (lex Outside clause).

(** A name the reader takes as one string literal in either clause. *)
Fixpoint plain (vm : string) : bool :=
  match vm with
  | EmptyString => true
  | String c rest =>
      negb (is_quote c) && negb (Ascii.eqb c "\"%char) && plain rest
  end.

(** The configuration object after lines 133-139, whatever it held: a
    delay that is there stays, the name and the debug flag are written. *)
Definition resolved_configuration (vm : string) (dbg : bool) (cfg : pdict)
  : pdict :=
  dict_set "debug" (PBool dbg)
    (dict_set "domain_name" (PStr vm)
       (match dict_get "desktop_ready_delay" cfg with
        | Some _ => cfg
        | None => dict_set "desktop_ready_delay" (PInt DESKTOP_READY_DELAY) cfg
        end)).

(** The three keys capture_main writes into the configuration object. *)
Definition is_injected_key (k : string) : bool :=
  String.eqb k "desktop_ready_delay" || String.eqb k "domain_name"
  || String.eqb k "debug".

Definition is_dict (v : pyval) : bool :=
  match v with PDict _ => true | _ => false end.

(** A hook configuration in which the user wrote the injected keys. *)
Definition user_written : pyval :=
  PDict [("configuration",
          PDict [("domain_name", PStr "other"); ("debug", PBool true);
                 ("desktop_ready_delay", PInt 5)]);
         ("hooks", PList [PStr "filesystem"])].

(** The calls of the driver up to the read of the delay. *)
Definition offline_run : list call :=
  [Trigger "protocol_start"; Trigger "offline"].

(** The calls of the driver up to a failure of the wait or of the
    desktop_ready point. *)
Definition powered_run (seconds : Z) (failed : call) : list call :=
  [Trigger "protocol_start"; Trigger "offline";
   Log INFO "Starting the domain"; Poweron;
   Log DEBUG "Waiting %d seconds for desktop to be ready"] ++
  match failed with
  | Sleep _ => [Sleep seconds]
  | _ => [Sleep seconds; Trigger "desktop_ready"]
  end.

(** The wait of 180 seconds, and no other call. *)
Definition is_long_wait (c : call) : bool :=
  match c with Sleep seconds => seconds =? 180 | _ => false end.

(** A configuration whose delay is the string "180". *)
Definition with_text_delay : pyval :=
  PDict [("configuration", PDict [("desktop_ready_delay", PStr "180")])].

(** The calls of [__init__], lines 32-65, when all of them return. *)
Definition provisioning (vm uri : string) : list call :=
  [NamedTemporaryFile; LibvirtOpen uri; LookupByName vm; XMLDesc; TmpWrite;
   TmpFlush; GetHardDrivePath; TemporaryDirectory; ContextFactoryInit].

Definition is_provisioning_call (c : call) : bool :=
  match c with
  | NamedTemporaryFile | LibvirtOpen _ | LookupByName _ | XMLDesc | TmpWrite
  | TmpFlush | GetHardDrivePath | TemporaryDirectory | ContextFactoryInit =>
      true
  | _ => false
  end.

Definition is_environment_call (c : call) : bool :=
  match c with
  | EnvironmentInit _ | EnvironmentEnter | EnvironmentExit => true
  | _ => false
  end.

(** The see environment is built, entered and left without an exception. *)
Definition environment_returns (w : World) : Prop :=
  forall history c, is_environment_call c = true -> raises w history c = None.

Definition is_tmp_close (c : call) : bool :=
  match c with TmpClose => true | _ => false end.

(** Calls other than the close of the temporary file. *)
Definition before_close (c : call) : Prop := is_tmp_close c = false.

(** The [neo4j] dictionary as capture_main holds it at the [try]: the
    ledger is off, or lines 169-170 have stored the entity and the graph. *)
Definition neo4j_settled (neo4j : pdict) : Prop :=
  flag "enabled" neo4j = false ∨
  exists identity,
    dict_get "OS" neo4j = Some (POS identity) ∧
    dict_get "graph" neo4j = Some PGraph.

(** The cleanup of the storage directory fails. *)
Definition is_cleanup (c : call) : bool :=
  match c with StorageCleanup => true | _ => false end.

(** A store as Neo4j holds one: node identities are unique and every
    relationship joins two nodes of the store. *)
Definition well_formed (g : graph) : Prop :=
  NoDup (map nid (nodes g)) ∧
  forall r, r ∈ rels g ->
    r.1 ∈ map nid (nodes g) ∧ r.2 ∈ map nid (nodes g).

(** ** Scenarios *)

(** Two captures that share an evidence node. *)
Definition shared_evidence : graph :=
  Graph [Node 1 true "win7"; Node 2 false "evidence"; Node 3 true "win10"]
        [(1, 2); (3, 2)]%nat.

(** Collaborators that never fail, hooks that leave the store alone. *)
Definition calm (document : file_status) : World :=
  {| hooks_file := fun _ => document;
     raises := fun _ _ => None;
     hooks_effect := fun _ _ g => g;
     push_store := fun _ g => g;
     where_holds := cypher_where |}.

Definition idle : state := State [] empty_graph Absent Absent.

Definition holding (g : graph) : state := State [] g Absent Absent.

Definition win10 : Args :=
  {| vm_name := "win10"; connection := "qemu:///system"; debug := false;
     plugins_configuration := "hooks.json" |}.

(** Collaborators that never fail, except that the calls picked out by
    [hit] raise [e]. *)
Definition failing (hit : call -> bool) (e : exn) (document : file_status)
  : World :=
  {| hooks_file := fun _ => document;
     raises := fun _ c => if hit c then Some e else None;
     hooks_effect := fun _ _ g => g;
     push_store := fun _ g => g;
     where_holds := cypher_where |}.

Definition is_sleep (c : call) : bool :=
  match c with Sleep _ => true | _ => false end.
Definition is_libvirt_open (c : call) : bool :=
  match c with LibvirtOpen _ => true | _ => false end.
Definition is_lookup (c : call) : bool :=
  match c with LookupByName _ => true | _ => false end.
Definition is_disk_path (c : call) : bool :=
  match c with GetHardDrivePath => true | _ => false end.
Definition is_offline (c : call) : bool :=
  match c with Trigger "offline" => true | _ => false end.

Definition system_uri : string := "qemu:///system".

(** A hook configuration that enables the ledger. *)
Definition ledger_on (replace : bool) : pyval :=
  PDict [("configuration",
          PDict [("neo4j", PDict [("enabled", PBool true);
                                  ("replace", PBool replace)])])].

(** The three provisioning failures: libvirt.open, lookupByName and
    get_hard_drive_path raising. *)
Definition hypervisor_unreachable : World :=
  failing is_libvirt_open (ExternalError "hypervisor unreachable") Missing.
Definition domain_not_found : World :=
  failing is_lookup (ExternalError "domain not found") Missing.
Definition disk_unresolvable : World :=
  failing is_disk_path (ExternalError "disk path not resolvable") Missing.

(** The operator interrupts the wait for the desktop. *)
Definition interrupted : World :=
  failing is_sleep KeyboardInterrupt (Parsed (ledger_on false)).

(** The same interrupt in a session that replaces a previous capture. *)
Definition interrupted_replace : World :=
  failing is_sleep KeyboardInterrupt (Parsed (ledger_on true)).

(** A hook raises at the offline point. *)
Definition hook_fails : World :=
  failing is_offline (ExternalError "hook") (Parsed (ledger_on false)).

(** The session of win10 as the admission leaves it on an empty store. *)
Definition entered_win10 : state :=
  State [] (graph_create "win10" empty_graph) Absent Absent.

Definition bound_win10 : pdict := bound 1 [("enabled", PBool true)].



(** A name that closes the double quote of line 24: [x] followed by a
    double quote, [ OR ], and a comparison of two literals that is left for
    the closing quote of the format string to end. *)
Definition spliced_delete : string :=
  String.append "x"
    (String.append double_quote
       (String.append " OR "
          (String.append double_quote
             (String.append "1"
                (String.append double_quote
                   (String.append "=" (String.append double_quote "1"))))))).


(** A store that already holds a capture of win10 with one evidence node,
    and an unrelated capture of win7. *)
Definition captured_before : graph :=
  Graph [Node 1 true "win10"; Node 2 false "evidence"; Node 3 true "win7"]
        [(1, 2)]%nat.

Definition with_delay (d : Z) : pyval :=
  PDict [("configuration", PDict [("desktop_ready_delay", PInt d)])].

(** * Properties *)

(** ** The subgraph deletion query *)

Section SubgraphDelete.

Local Open Scope nat_scope.

Implicit Types (g : graph) (s t : gset nat) (a b x : nat).

Lemma elem_of_grow_rels (l : list (nat * nat)) s x :
  x ∈ foldr (fun (r : nat * nat) acc =>
               (if decide (r.1 ∈ s) then {[ r.2 ]} else ∅) ∪
               (if decide (r.2 ∈ s) then {[ r.1 ]} else ∅) ∪ acc) s l
  ↔ x ∈ s ∨ ∃ y, y ∈ s ∧ ((y, x) ∈ l ∨ (x, y) ∈ l).
Proof.
  induction l as [|[p q] l IH]; simpl.
  - split; [auto|]. intros [?|(y & _ & [H|H])]; [done|inversion H..].
  - rewrite !elem_of_union, IH. split.
    + intros [[H|H]|[H|(y & Hy & H)]].
      * destruct (decide (p ∈ s)); [|set_solver].
        apply elem_of_singleton in H as ->. right. exists p. split; [done|].
        left. left.
      * destruct (decide (q ∈ s)); [|set_solver].
        apply elem_of_singleton in H as ->. right. exists q. split; [done|].
        right. left.
      * by left.
      * right. exists y. split; [done|].
        destruct H; [left|right]; by right.
    + intros [H|(y & Hy & [H|H])]; [right; by left|..].
      * apply elem_of_cons in H as [[= -> ->]|H].
        -- left. left. rewrite decide_True by done. set_solver.
        -- right. right. eauto.
      * apply elem_of_cons in H as [[= -> ->]|H].
        -- left. right. rewrite decide_True by done. set_solver.
        -- right. right. eauto.
Qed.

Lemma elem_of_grow g s x :
  x ∈ grow g s ↔ x ∈ s ∨ ∃ y, y ∈ s ∧ adjacent g y x.
Proof. apply elem_of_grow_rels. Qed.

Lemma grow_extensive g s : s ⊆ grow g s.
Proof. intros x Hx. apply elem_of_grow. by left. Qed.

Lemma adjacent_endpoint g a b : adjacent g a b -> b ∈ endpoints g.
Proof.
  unfold endpoints. intros [H|H]; apply elem_of_union; [right|left];
    apply elem_of_list_to_set, list_elem_of_fmap; by exists (a, b) + exists (b, a).
Qed.

Lemma grow_bounded g s t : s ⊆ t -> endpoints g ⊆ t -> grow g s ⊆ t.
Proof.
  intros Hs He x [Hx|(y & _ & Hadj)]%elem_of_grow; [by apply Hs|].
  eapply He, adjacent_endpoint, Hadj.
Qed.

Lemma grow_n_fixed g n s : grow g s = s -> grow_n g n s = s.
Proof. intros Hfix. induction n as [|n IH]; simpl; [done|]. by rewrite Hfix. Qed.

Lemma grow_n_extensive g n s : s ⊆ grow_n g n s.
Proof.
  revert s. induction n as [|n IH]; intros s; simpl; [done|].
  etrans; [apply grow_extensive|apply IH].
Qed.

(** Enough rounds close the set: every round that changes it adds an
    identity out of a finite supply. *)
Lemma grow_n_closed g n s t :
  s ⊆ t -> endpoints g ⊆ t -> size t ≤ n + size s ->
  grow g (grow_n g n s) = grow_n g n s.
Proof.
  revert s. induction n as [|n IH]; intros s Hs He Hsize; simpl.
  - assert (s = t) as -> by (apply set_subseteq_size_eq; [done|lia]).
    apply set_eq. intros x. split; [|apply grow_extensive].
    by apply grow_bounded.
  - destruct (decide (grow g s = s)) as [Hfix|Hne].
    + by rewrite Hfix, grow_n_fixed.
    + apply IH; [by apply grow_bounded|done|].
      assert (s ⊂ grow g s) as Hlt%subset_size; [|lia].
      split; [apply grow_extensive|].
      intros Hback. apply Hne, set_eq. intros x.
      split; [apply Hback|apply grow_extensive].
Qed.

Lemma grow_n_sound g n s x :
  x ∈ grow_n g n s -> ∃ r, r ∈ s ∧ joined g r x.
Proof.
  revert s. induction n as [|n IH]; intros s; simpl.
  - intros Hx. exists x. split; [done|constructor].
  - intros (r & Hr & Hj)%IH.
    apply elem_of_grow in Hr as [Hr|(y & Hy & Hadj)]; [by exists r|].
    exists y. split; [done|].
    clear -Hj Hadj. induction Hj as [a|a b c Hj IHj Hbc].
    + eapply joined_step; [constructor|done].
    + eapply joined_step; [by apply IHj|done].
Qed.

Lemma joined_closed g t r x :
  grow g t = t -> r ∈ t -> joined g r x -> x ∈ t.
Proof.
  intros Hfix Hr Hj. induction Hj as [a|a b c Hj IHj Hbc]; [done|].
  rewrite <- Hfix. apply elem_of_grow. right. exists b. auto.
Qed.

Lemma elem_of_os_roots sel g r :
  r ∈ os_roots sel g ↔ ∃ o, o ∈ nodes g ∧ sel o = true ∧ nid o = r.
Proof.
  unfold os_roots. rewrite elem_of_list_to_set, list_elem_of_fmap. split.
  - intros (o & -> & Ho). apply list_elem_of_In, filter_In in Ho as [Ho Hn].
    exists o. by rewrite list_elem_of_In.
  - intros (o & Ho & Hn & <-). exists o. split; [done|].
    apply list_elem_of_In, filter_In. by rewrite <- list_elem_of_In.
Qed.

(** The set the query deletes is the set the pattern describes. *)
Lemma elem_of_matched sel g x :
  x ∈ matched sel g ↔
  ∃ o, o ∈ nodes g ∧ sel o = true ∧ joined g (nid o) x.
Proof.
  unfold matched. split.
  - intros (r & (o & Ho & Hn & <-)%elem_of_os_roots & Hj)%grow_n_sound. eauto.
  - intros (o & Ho & Hn & Hj).
    eapply joined_closed; [|apply grow_n_extensive, elem_of_os_roots; eauto|done].
    apply (grow_n_closed g _ _ (os_roots sel g ∪ endpoints g));
      [apply union_subseteq_l|apply union_subseteq_r|].
    rewrite size_union_alt.
    assert (size (endpoints g ∖ os_roots sel g) ≤ size (endpoints g))
      by (by apply subseteq_size, subseteq_difference_l).
    lia.
Qed.

End SubgraphDelete.

Lemma elem_of_subgraph_delete_os sel g n :
  n ∈ nodes (subgraph_delete_os sel g) ↔
  n ∈ nodes g ∧
  ¬ ∃ o, o ∈ nodes g ∧ sel o = true ∧ joined g (nid o) (nid n).
Proof.
  unfold subgraph_delete_os. simpl.
  by rewrite list_elem_of_filter, elem_of_matched, (comm and).
Qed.

Lemma elem_of_subgraph_delete_os_rels sel g r :
  r ∈ rels (subgraph_delete_os sel g) ↔
  r ∈ rels g ∧
  ¬ (∃ o, o ∈ nodes g ∧ sel o = true ∧ joined g (nid o) r.1) ∧
  ¬ (∃ o, o ∈ nodes g ∧ sel o = true ∧ joined g (nid o) r.2).
Proof.
  unfold subgraph_delete_os. simpl.
  rewrite list_elem_of_filter, !elem_of_matched. tauto.
Qed.

(** Two selections that agree on every node select, find and delete the
    same. *)
Lemma subgraph_delete_os_ext sel sel' g :
  (forall n, sel n = sel' n) ->
  subgraph_delete_os sel g = subgraph_delete_os sel' g.
Proof.
  intros Hsame. unfold subgraph_delete_os, matched, os_roots.
  by rewrite (List.filter_ext sel sel' Hsame).
Qed.



Lemma reads_name_rooted w vm n :
  reads_name w vm -> os_rooted w vm n = os_named vm n.
Proof.
  intros Hreads. unfold os_rooted, os_where, os_named.
  by rewrite (proj2 (Hreads n)).
Qed.

Lemma run_subgraph_delete_named w vm g :
  reads_name w vm ->
  run_subgraph_delete w vm g = subgraph_delete_os (os_named vm) g.
Proof.
  intros Hreads. apply subgraph_delete_os_ext.
  intros n. by apply reads_name_rooted.
Qed.


Lemma append_nil (s : string) : String.append "" s = s.
Proof. reflexivity. Qed.

Lemma append_cons c (s t : string) :
  String.append (String c s) t = String c (String.append s t).
Proof. reflexivity. Qed.

Lemma snoc_append seen c rest :
  String.append (snoc seen c) rest = String.append seen (String c rest).
Proof.
  unfold snoc. induction seen as [|a seen IH]; [reflexivity|].
  by rewrite !append_cons, IH.
Qed.

Lemma lex_plain_literal vm quote seen rest :
  is_quote quote = true -> plain vm = true ->
  lex (Literal quote seen) (String.append vm (String quote rest)) =
  TLit (String.append seen vm) :: lex Outside rest.
Proof.
  intros Hquote. revert seen. induction vm as [|c vm IH]; intros seen Hplain.
  - rewrite append_nil. simpl. rewrite Ascii.eqb_refl. do 2 f_equal.
    induction seen as [|a seen IHseen]; [reflexivity|].
    by rewrite append_cons, <- IHseen.
  - simpl in Hplain.
    apply andb_prop in Hplain as [[Hc Hslash]%andb_prop Hrest].
    apply negb_true_iff in Hc, Hslash. rewrite append_cons. simpl.
    destruct (Ascii.eqb_spec c quote) as [->|_]; [congruence|].
    rewrite Hslash, IH, snoc_append by done. reflexivity.
Qed.

(** The reader of the scenarios takes a name without quote or backslash
    characters as one string literal, in either clause. *)
Lemma plain_reads_name document vm :
  plain vm = true -> reads_name (calm document) vm.
Proof.
  intros Hplain n. unfold calm, cypher_where, name_clause, delete_clause.
  unfold double_quote. rewrite !append_cons, !append_nil. simpl. split.
  - rewrite (lex_plain_literal vm "'" "" "") by done. reflexivity.
  - rewrite (lex_plain_literal vm "034" "" "") by done. reflexivity.
Qed.

(** Deleting the subgraph of an entity that was just created, on a store
    in which nothing else is selected and no relationship is at the fresh
    identity, gives the store back as it was. *)
Lemma nid_below_fresh_id g n : n ∈ nodes g -> (nid n < fresh_id g)%nat.
Proof.
  unfold fresh_id. intros Hn%list_elem_of_In.
  induction (nodes g) as [|m l IH]; simpl in *; [done|].
  destruct Hn as [->|Hn]; [lia|]. specialize (IH Hn). lia.
Qed.

Lemma list_filter_all {A} (P : A -> Prop) `{!forall x, Decision (P x)}
    (l : list A) :
  Forall P l -> filter P l = l.
Proof.
  induction 1 as [|x l Hx Hl IH]; [done|].
  by rewrite filter_cons_True, IH.
Qed.

Lemma subgraph_delete_os_fresh sel vm g :
  entities sel g = 0%nat ->
  sel (Node (fresh_id g) true vm) = true ->
  fresh_id g ∉ endpoints g ->
  subgraph_delete_os sel (graph_create vm g) = g.
Proof.
  intros Hnone Hnew Hloose.
  assert (matched sel (graph_create vm g) = {[ fresh_id g ]}) as Hdead.
  { unfold matched, os_roots. simpl. rewrite List.filter_app.
    apply length_zero_iff_nil in Hnone. rewrite Hnone. simpl.
    rewrite Hnew. simpl.
    rewrite union_empty_r_L. apply grow_n_fixed.
    apply set_eq. intros x. rewrite elem_of_grow. split; [|by left].
    intros [Hx|(y & ->%elem_of_singleton & Hadj)]; [done|].
    destruct Hloose. unfold endpoints, adjacent, graph_create in *. simpl in *.
    apply elem_of_union.
    destruct Hadj as [H|H]; [left|right];
      apply elem_of_list_to_set, list_elem_of_fmap;
      [by exists (fresh_id g, x)|by exists (x, fresh_id g)]. }
  unfold subgraph_delete_os. rewrite Hdead. destruct g as [ns rs]. simpl.
  f_equal.
  - rewrite filter_app, filter_cons_False, filter_nil, app_nil_r
      by (simpl; intros Hout; by apply Hout, elem_of_singleton).
    apply list_filter_all, Forall_forall. intros n Hn.
    apply (nid_below_fresh_id (Graph ns rs)) in Hn.
    rewrite not_elem_of_singleton. lia.
  - apply list_filter_all, Forall_forall. intros [a b] Hr.
    rewrite !not_elem_of_singleton. simpl.
    split; intros ->; apply Hloose; unfold endpoints; simpl;
      apply elem_of_union; [left|right];
      apply elem_of_list_to_set, list_elem_of_fmap;
      [by exists (fresh_id (Graph ns rs), b)
      |by exists (a, fresh_id (Graph ns rs))].
Qed.

Lemma os_named_new vm identity : os_named vm (Node identity true vm) = true.
Proof. unfold os_named. simpl. apply String.eqb_refl. Qed.

(** C7, as amended.  For a name the store reads as a string literal, the
    query as formatted removes exactly the nodes joined to an OS node of
    that name by relationships followed in either direction; a node, of
    whatever name, that no such path reaches stays in the store, and a
    relationship stays exactly when both its ends do. *)
Theorem subgraph_delete_os_exact w vm g :
  reads_name w vm ->
  (forall n, n ∈ nodes (run_subgraph_delete w vm g) ↔
     n ∈ nodes g ∧
     ¬ ∃ o, o ∈ nodes g ∧ os_named vm o = true ∧ joined g (nid o) (nid n)) ∧
  (forall r, r ∈ rels (run_subgraph_delete w vm g) ↔
     r ∈ rels g ∧
     ¬ (∃ o, o ∈ nodes g ∧ os_named vm o = true ∧ joined g (nid o) r.1) ∧
     ¬ (∃ o, o ∈ nodes g ∧ os_named vm o = true ∧ joined g (nid o) r.2)).
Proof.
  intros Hreads. rewrite run_subgraph_delete_named by done. split.
  - intros n. apply elem_of_subgraph_delete_os.
  - intros r. apply elem_of_subgraph_delete_os_rels.
Qed.

Lemma subgraph_delete_os_exact_witness :
  Node 2 false "evidence" ∉
    nodes (run_subgraph_delete (calm Missing) "win10" captured_before).
Proof.
  destruct (subgraph_delete_os_exact (calm Missing) "win10" captured_before)
    as [Hnodes _]; [intros n; split; reflexivity|].
  intros Hin. apply Hnodes in Hin as [_ Hfar]. apply Hfar.
  exists (Node 1 true "win10").
  split; [apply list_elem_of_In; simpl; auto|]. split; [reflexivity|].
  eapply joined_step; [apply joined_here|].
  left. apply list_elem_of_In. simpl. auto.
Defined.

(** C7, as the claim has it, fails even for plain names: deleting the
    subgraph of "win7" takes the entity of "win10" along when the two share
    an evidence node. *)
Lemma subgraph_delete_os_takes_other_name :
  Node 3 true "win10" ∈ nodes shared_evidence ∧
  os_named "win7" (Node 3 true "win10") = false ∧
  Node 3 true "win10" ∉
    nodes (run_subgraph_delete (calm Missing) "win7" shared_evidence).
Proof.
  split; [|split].
  - apply list_elem_of_In. simpl. auto.
  - reflexivity.
  - intros H. apply list_elem_of_In in H. vm_compute in H. exact H.
Qed.

(** The query formatted for a name that closes the double quote selects
    every OS node: both captures go, whatever their names. *)
Example spliced_name_deletes_every_capture :
  run_subgraph_delete (calm Missing) spliced_delete captured_before
  = empty_graph.
Proof. vm_compute. reflexivity. Qed.

(** ** The protocol driver *)

Ltac run_step :=
  unfold bind, lift, ret, log, note, graph_op, modify; simpl.

(** Run the calls ahead, none of which raises by [H]. *)
Ltac run_with H :=
  repeat (progress (unfold bind, ext, graph_op, modify, lift, ret, log, note;
                    simpl; rewrite ?H by reflexivity)).

Lemma calls_of_app {A} (m : M A) st r st' added :
  m st = (r, st') -> trace st' = trace st ++ added -> calls_of m st = added.
Proof.
  intros Hrun Htrace. unfold calls_of. rewrite Hrun. simpl.
  rewrite Htrace. apply drop_app_length.
Qed.

Lemma protocol_undisturbed_run w hooks_config config delay positive st :
  py_getitem "configuration" hooks_config = Ok config ->
  py_getitem "desktop_ready_delay" config = Ok delay ->
  py_gt_zero delay = Ok positive ->
  protocol_undisturbed w ->
  (protocol w hooks_config st).1 = Ok tt ∧
  calls_of (protocol w hooks_config) st =
    if positive then power_cycle_run (py_seconds delay) else short_run.
Proof.
  intros Hcfg Hdelay Hpos Hq.
  destruct (protocol w hooks_config st) as [r st'] eqn:Hrun.
  assert (r = Ok tt ∧ trace st' = trace st ++
            if positive then power_cycle_run (py_seconds delay) else short_run)
    as [-> Htrace].
  { revert Hrun. unfold protocol. run_step. rewrite Hcfg. simpl.
    unfold see_call. simpl. rewrite !Hq by reflexivity. simpl.
    rewrite Hdelay. simpl. rewrite Hpos. simpl.
    destruct positive; simpl; unfold ext, see_call; simpl;
      rewrite ?Hq by reflexivity; simpl;
      intros [= <- <-]; simpl; by rewrite <- ?app_assoc. }
  split; [done|]. by eapply calls_of_app.
Qed.

(** C1.  With a configured delay [d] and hooks that return, the driver
    makes exactly the calls of the short run when [d] is zero, without ever
    powering the context on, and exactly those of the power-cycle run when
    [d] is positive: power on, the wait of [d] seconds, desktop_ready, power
    off, and only then protocol_end. *)
Theorem protocol_trigger_sequence w hooks_config config d st :
  py_getitem "configuration" hooks_config = Ok config ->
  py_getitem "desktop_ready_delay" config = Ok (PInt d) ->
  0 <= d ->
  protocol_undisturbed w ->
  (protocol w hooks_config st).1 = Ok tt ∧
  calls_of (protocol w hooks_config) st =
    (if d =? 0 then short_run else power_cycle_run d) ∧
  phases (calls_of (protocol w hooks_config) st) =
    (if d =? 0 then ["protocol_start"; "offline"; "protocol_end"]
     else ["protocol_start"; "offline"; "poweron"; "desktop_ready";
           "poweroff"; "protocol_end"]) ∧
  (d = 0 -> Poweron ∉ calls_of (protocol w hooks_config) st).
Proof.
  intros Hcfg Hdelay Hd Hq.
  destruct (protocol_undisturbed_run w hooks_config config (PInt d) (0 <? d) st)
    as [Hok Hcalls]; [done..|].
  assert ((0 <? d) = negb (d =? 0)) as Hflip by lia.
  rewrite Hflip in Hcalls. rewrite Hcalls. simpl py_seconds.
  split; [done|]. split; [by destruct (d =? 0)|].
  split; [by destruct (d =? 0)|].
  intros ->. simpl. intros H. apply list_elem_of_In in H. simpl in H.
  intuition discriminate.
Qed.

Lemma protocol_trigger_sequence_witness :
  phases (calls_of (protocol (calm Missing) (with_delay 0)) idle) =
    ["protocol_start"; "offline"; "protocol_end"] ∧
  phases (calls_of (protocol (calm Missing) (with_delay 180)) idle) =
    ["protocol_start"; "offline"; "poweron"; "desktop_ready";
     "poweroff"; "protocol_end"].
Proof.
  split.
  - apply (protocol_trigger_sequence (calm Missing) (with_delay 0)
             (PDict [("desktop_ready_delay", PInt 0)]) 0 idle);
      [reflexivity|reflexivity|lia|intros h c _; reflexivity].
  - apply (protocol_trigger_sequence (calm Missing) (with_delay 180)
             (PDict [("desktop_ready_delay", PInt 180)]) 180 idle);
      [reflexivity|reflexivity|lia|intros h c _; reflexivity].
Defined.

(** C10.  A negative delay is a zero delay to the driver: the two runs are
    the same run whatever the hooks do, the context is never powered on, and
    hooks that return see protocol_start, offline and protocol_end only. *)
Theorem protocol_negative_delay w hooks_config config zero_config zero d st :
  d < 0 ->
  py_getitem "configuration" hooks_config = Ok config ->
  py_getitem "desktop_ready_delay" config = Ok (PInt d) ->
  py_getitem "configuration" zero_config = Ok zero ->
  py_getitem "desktop_ready_delay" zero = Ok (PInt 0) ->
  protocol w hooks_config st = protocol w zero_config st ∧
  (Poweron ∉ calls_of (protocol w hooks_config) st) ∧
  (protocol_undisturbed w ->
   phases (calls_of (protocol w hooks_config) st) =
     ["protocol_start"; "offline"; "protocol_end"]).
Proof.
  intros Hneg Hcfg Hdelay Hcfg0 Hdelay0.
  assert ((0 <? d) = false) as Hlt by lia.
  split; [|split].
  - unfold protocol. run_step. rewrite Hcfg, Hcfg0. simpl.
    destruct (see_call w (Trigger "protocol_start") st) as [[[]|e] st1]; [|done].
    destruct (see_call w (Trigger "offline") st1) as [[[]|e] st2]; [|done].
    rewrite Hdelay, Hdelay0. simpl. by rewrite Hlt.
  - unfold calls_of, protocol. run_step. rewrite Hcfg. simpl.
    unfold see_call. simpl.
    destruct (raises w (trace st) (Trigger "protocol_start")); simpl;
      [rewrite drop_app_length; intros H; apply list_elem_of_In in H;
       simpl in H; intuition discriminate|].
    destruct (raises w (trace st ++ [Trigger "protocol_start"])
                (Trigger "offline")); simpl;
      [rewrite <- app_assoc, drop_app_length; intros H;
       apply list_elem_of_In in H; simpl in H; intuition discriminate|].
    rewrite Hdelay. simpl. rewrite Hlt. simpl.
    destruct (raises w _ (Trigger "protocol_end")); simpl;
      rewrite <- !app_assoc, drop_app_length; intros H;
      apply list_elem_of_In in H; simpl in H; intuition discriminate.
  - intros Hq.
    destruct (protocol_undisturbed_run w hooks_config config (PInt d) false st)
      as [_ ->]; [done|done|by simpl; rewrite Hlt|done|done].
Qed.

Lemma protocol_negative_delay_witness :
  protocol (calm Missing) (with_delay (-5)) idle =
    protocol (calm Missing) (with_delay 0) idle ∧
  Poweron ∉ calls_of (protocol (calm Missing) (with_delay (-5))) idle.
Proof.
  destruct (protocol_negative_delay (calm Missing) (with_delay (-5))
              (PDict [("desktop_ready_delay", PInt (-5))]) (with_delay 0)
              (PDict [("desktop_ready_delay", PInt 0)]) (-5) idle)
    as (Hsame & Hoff & _); [lia|reflexivity..|].
  split; [exact Hsame|exact Hoff].
Defined.

(** ** Resolving the configuration *)

Lemma dict_get_set_eq k v (d : pdict) : dict_get k (dict_set k v d) = Some v.
Proof.
  induction d as [|[k' v'] d IH]; simpl.
  - by rewrite String.eqb_refl.
  - destruct (String.eqb k k') eqn:Hk; simpl; by rewrite ?String.eqb_refl, ?Hk.
Qed.

Lemma dict_get_set_ne k k' v (d : pdict) :
  k <> k' -> dict_get k (dict_set k' v d) = dict_get k d.
Proof.
  intros Hne. apply String.eqb_neq in Hne.
  induction d as [|[k0 v0] d IH]; simpl.
  - by rewrite Hne.
  - destruct (String.eqb k' k0) eqn:Hk; simpl.
    + apply String.eqb_eq in Hk as <-. by rewrite Hne.
    + by rewrite IH.
Qed.

Lemma dict_set_set k v v' (d : pdict) :
  dict_set k v' (dict_set k v d) = dict_set k v' d.
Proof.
  induction d as [|[k0 v0] d IH]; simpl.
  - by rewrite String.eqb_refl.
  - destruct (String.eqb k k0) eqn:Hk; simpl; by rewrite ?String.eqb_refl, ?Hk, ?IH.
Qed.

(** C9, as amended.  For a hook configuration that is a JSON object without
    the key 'configuration', or whose 'configuration' is an object without
    'desktop_ready_delay', resolving does not fail: the configuration object
    (an empty one when the key was missing) is stored under 'configuration'
    with desktop_ready_delay set to 180. *)
Theorem resolve_config_defaults vm dbg (kvs cfg : pdict) :
  (dict_get "configuration" kvs = None ∧ cfg = []) ∨
  dict_get "configuration" kvs = Some (PDict cfg) ->
  dict_get "desktop_ready_delay" cfg = None ->
  resolve_config vm dbg (PDict kvs) =
    Ok (PDict (dict_set "configuration" (PDict (with_defaults vm dbg cfg)) kvs)) ∧
  dict_get "desktop_ready_delay" (with_defaults vm dbg cfg) = Some (PInt 180).
Proof.
  intros Hshape Hdelay. split.
  - cbv [resolve_config set_config_key with_defaults rbind
           py_contains py_getitem py_setitem].
    destruct Hshape as [[Hnone ->]|Hsome].
    + rewrite Hnone.
      repeat first [rewrite dict_get_set_eq | rewrite dict_set_set
                   | progress cbn [dict_get String.eqb Ascii.eqb Bool.eqb]].
      done.
    + repeat first [rewrite Hsome | rewrite Hdelay | rewrite dict_get_set_eq
                   | rewrite dict_set_set | progress cbv beta iota].
      done.
  - unfold with_defaults.
    rewrite !dict_get_set_ne by discriminate. apply dict_get_set_eq.
Qed.

Lemma resolve_config_defaults_witness :
  resolve_config "win10" false (PDict []) =
    Ok (PDict [("configuration",
                PDict [("desktop_ready_delay", PInt 180);
                       ("domain_name", PStr "win10");
                       ("debug", PBool false)])]).
Proof.
  apply (resolve_config_defaults "win10" false [] []);
    [left; split; reflexivity|reflexivity].
Defined.

(** C9, as the claim has it, fails: the document [[]] is valid JSON without
    the key 'configuration', and line 130 raises TypeError on it. *)
Lemma resolve_config_rejects_array :
  py_contains "configuration" (PList []) = Ok false ∧
  resolve_config "win10" false (PList []) = Raise TypeError ∧
  (capture_main (calm (Parsed (PList []))) win10 idle).1 = Raise TypeError.
Proof. repeat split. Qed.

(** ** Loading the hook configuration *)

(** C8, as amended.  A hook configuration that is not valid JSON ends the
    run after the error message, with nothing else done: no call to the
    store, no temporary file or directory, the store as it was.  A missing
    file ends the run with nothing done either, but by FileNotFoundError
    leaving capture_main, and no message is logged. *)
Theorem capture_main_unusable_hooks_file w args st :
  (hooks_file w (plugins_configuration args) = Unparsable ->
   capture_main w args st =
     (Ok tt,
      State (trace st ++
               [InitLogger (debug args); OpenFile (plugins_configuration args);
                JsonLoad; Log ERROR "Failed to parse %s: Invalid JSON";
                CloseFile])
            (store st) (tmp_file st) (tmp_dir st))) ∧
  (hooks_file w (plugins_configuration args) = Missing ->
   capture_main w args st =
     (Raise FileNotFoundError,
      State (trace st ++
               [InitLogger (debug args); OpenFile (plugins_configuration args)])
            (store st) (tmp_file st) (tmp_dir st))).
Proof.
  split; intros Hfile; unfold capture_main, load_hooks; run_step;
    rewrite Hfile; unfold record; simpl; by rewrite <- ?app_assoc.
Qed.

(** C8, as the claim has it, fails for the missing file: the run ends by an
    exception and the trace holds no logging call. *)
Lemma missing_hooks_file_logs_nothing :
  (capture_main (calm Missing) win10 idle).1 = Raise FileNotFoundError ∧
  forall lvl msg, Log lvl msg ∉ trace (capture_main (calm Missing) win10 idle).2.
Proof.
  split; [reflexivity|]. intros lvl msg H.
  apply list_elem_of_In in H. simpl in H. intuition discriminate.
Qed.

(** ** What a computation leaves alone *)

Section Keeps.

Context {X : Type} (f : state -> X).

Lemma keeps_ret {A} (a : A) : keeps f (ret a).
Proof. by intros st. Qed.

Lemma keeps_lift {A} (r : result A) : keeps f (lift r).
Proof. by intros st. Qed.

Lemma keeps_bind {A B} (m : M A) (k : A -> M B) :
  keeps f m -> (forall a, keeps f (k a)) -> keeps f (bind m k).
Proof.
  intros Hm Hk st. unfold bind. specialize (Hm st).
  destruct (m st) as [[a|e] st1]; simpl in *; [|done].
  by rewrite Hk.
Qed.

Lemma keeps_with_exit {A} (exit : M unit) (body : M A) :
  keeps f exit -> keeps f body -> keeps f (with_exit exit body).
Proof.
  intros Hexit Hbody st. unfold with_exit. specialize (Hbody st).
  destruct (body st) as [r st1]. specialize (Hexit st1).
  destruct (exit st1) as [[[]|e] st2]; simpl in *; congruence.
Qed.

Lemma keeps_modify (change : state -> state) :
  (forall st, f (change st) = f st) -> keeps f (modify change).
Proof. intros H st. apply H. Qed.

Hypothesis f_record : forall c st, f (record c st) = f st.

Lemma keeps_note c : keeps f (note c).
Proof. intros st. apply f_record. Qed.

Lemma keeps_log lvl msg : keeps f (log lvl msg).
Proof. apply keeps_note. Qed.

Lemma keeps_ext w c : keeps f (ext w c).
Proof. intros st. unfold ext. destruct (raises w _ _); apply f_record. Qed.

End Keeps.

Ltac keeps_step :=
  first
    [ apply keeps_ret | apply keeps_lift | apply keeps_log; [done]
    | apply keeps_note; [done] | apply keeps_ext; [done]
    | apply keeps_modify; [done]
    | apply keeps_with_exit
    | apply keeps_bind; [|intros ?]
    | match goal with
      | |- keeps _ (if ?b then _ else _) => destruct b
      | |- keeps _ (match ?x with _ => _ end) => destruct x
      end ].

Lemma keeps_resources_see_call w c : keeps resources (see_call w c).
Proof. intros st. unfold see_call. by destruct (raises w _ _). Qed.

Lemma keeps_resources_graph_op w c change :
  keeps resources (graph_op w c change).
Proof. unfold graph_op. repeat keeps_step. Qed.

Lemma keeps_store_see_call w c : hooks_inert w -> keeps store (see_call w c).
Proof.
  intros Hinert st. unfold see_call. rewrite Hinert.
  by destruct (raises w _ _).
Qed.

Lemma keeps_resources_protocol w hooks_config :
  keeps resources (protocol w hooks_config).
Proof.
  unfold protocol.
  repeat first [apply keeps_resources_see_call | keeps_step].
Qed.

Lemma keeps_resources_run_environment w hooks_config :
  keeps resources (run_environment w hooks_config).
Proof.
  unfold run_environment.
  repeat first [apply keeps_resources_see_call
               | apply keeps_resources_protocol | keeps_step].
Qed.

Lemma keeps_resources_rollback w vm neo4j :
  keeps resources (rollback w vm neo4j).
Proof.
  unfold rollback.
  repeat first [apply keeps_resources_graph_op | keeps_step].
Qed.

Lemma keeps_resources_push_updates w neo4j :
  keeps resources (push_updates w neo4j).
Proof.
  unfold push_updates.
  repeat first [apply keeps_resources_graph_op | keeps_step].
Qed.

Lemma keeps_store_capture_body w vm uri hooks_config :
  hooks_inert w -> keeps store (capture_body w vm uri hooks_config).
Proof.
  intros Hinert. unfold capture_body, factory_init, factory_exit,
    run_environment, protocol.
  repeat first [by apply keeps_store_see_call | keeps_step].
Qed.

(** ** What a computation calls *)

Section Only.

Context (kind : call -> Prop).

Lemma only_ret {A} (a : A) : only kind (ret a).
Proof. intros st. exists []. by rewrite app_nil_r. Qed.

Lemma only_lift {A} (r : result A) : only kind (lift r).
Proof. intros st. exists []. by rewrite app_nil_r. Qed.

Lemma only_modify (change : state -> state) :
  (forall st, trace (change st) = trace st) -> only kind (modify change).
Proof. intros H st. exists []. simpl. by rewrite H, app_nil_r. Qed.

Lemma only_bind {A B} (m : M A) (k : A -> M B) :
  only kind m -> (forall a, only kind (k a)) -> only kind (bind m k).
Proof.
  intros Hm Hk st. unfold bind. destruct (Hm st) as (l1 & Ht1 & Hl1).
  destruct (m st) as [[a|e] st1]; simpl in *; [|by exists l1].
  destruct (Hk a st1) as (l2 & Ht2 & Hl2). exists (l1 ++ l2).
  rewrite Ht2, Ht1, app_assoc. split; [done|by apply Forall_app].
Qed.

Lemma only_with_exit {A} (exit : M unit) (body : M A) :
  only kind exit -> only kind body -> only kind (with_exit exit body).
Proof.
  intros Hexit Hbody st. unfold with_exit.
  destruct (Hbody st) as (l1 & Ht1 & Hl1). destruct (body st) as [r st1].
  destruct (Hexit st1) as (l2 & Ht2 & Hl2). simpl in *.
  exists (l1 ++ l2).
  destruct (exit st1) as [[[]|e] st2]; simpl in *;
    rewrite Ht2, Ht1, app_assoc; (split; [done|by apply Forall_app]).
Qed.

Lemma only_note c : kind c -> only kind (note c).
Proof. intros Hc st. exists [c]. split; [done|by constructor]. Qed.

Lemma only_log lvl msg : kind (Log lvl msg) -> only kind (log lvl msg).
Proof. apply only_note. Qed.

Lemma only_ext w c : kind c -> only kind (ext w c).
Proof.
  intros Hc st. exists [c]. unfold ext.
  destruct (raises w _ _); (split; [done|by constructor]).
Qed.

Lemma only_see_call w c : kind c -> only kind (see_call w c).
Proof.
  intros Hc st. exists [c]. unfold see_call.
  destruct (raises w _ _); (split; [done|by constructor]).
Qed.

End Only.

Ltac only_step :=
  first
    [ apply only_ret | apply only_lift
    | apply only_log; reflexivity | apply only_note; reflexivity
    | apply only_ext; reflexivity | apply only_see_call; reflexivity
    | apply only_modify; reflexivity
    | apply only_with_exit
    | apply only_bind; [|intros ?]
    | match goal with
      | |- only _ (if ?b then _ else _) => destruct b
      | |- only _ (match ?x with _ => _ end) => destruct x
      end ].

(** The two [with] statements and the protocol never call the store. *)
Lemma capture_body_off_ledger w vm uri hooks_config :
  only off_ledger (capture_body w vm uri hooks_config).
Proof.
  unfold capture_body, factory_init, factory_exit, run_environment, protocol.
  repeat only_step.
Qed.

Lemma only_calls_of {A} kind (m : M A) st :
  only kind m -> Forall kind (calls_of m st).
Proof.
  intros Honly. destruct (Honly st) as (added & Htrace & Hkind).
  unfold calls_of. by rewrite Htrace, drop_app_length.
Qed.

(** ** The scoped context *)

(** Once the factory is built, the body of the [with] statement ends in the
    release, whatever the environment and the protocol did. *)
Lemma capture_body_releases w vm uri hooks_config st st0 :
  factory_init w vm uri st = (Ok tt, st0) ->
  release_returns w ->
  exists r st2,
    run_environment w hooks_config st0 = (r, st2) ∧
    capture_body w vm uri hooks_config st =
      (r, State (trace st2 ++ [StorageCleanup; TmpClose]) (store st2)
                Released Released).
Proof.
  intros Hinit Hrel. unfold capture_body, bind. rewrite Hinit.
  unfold with_exit. destruct (run_environment w hooks_config st0) as [r st2].
  exists r, st2. split; [done|].
  unfold factory_exit. run_step. unfold ext.
  rewrite (proj1 (Hrel _)). simpl. rewrite (proj2 (Hrel _)). simpl.
  unfold set_tmp_file, set_tmp_dir, record. simpl. by rewrite <- app_assoc.
Qed.

(** C4.  Once provisioning has succeeded, the context is released on every
    way out of the session: however the environment and the protocol end
    (normally, by an exception of a hook, by an interrupt), the last two
    calls of the [with] statement are the cleanup of the storage directory
    and the close of the configuration file, and both resources are
    released when the session ends. *)
Theorem context_released_on_every_exit
    w vm uri hooks_config neo4j st st0 :
  factory_init w vm uri st = (Ok tt, st0) ->
  release_returns w ->
  let body := capture_body w vm uri hooks_config in
  (exists calls, trace (body st).2 = calls ++ [StorageCleanup; TmpClose]) ∧
  tmp_dir (body st).2 = Released ∧
  tmp_file (body st).2 = Released ∧
  tmp_dir (reconcile w vm neo4j body st).2 = Released ∧
  tmp_file (reconcile w vm neo4j body st).2 = Released.
Proof.
  intros Hinit Hrel body.
  destruct (capture_body_releases w vm uri hooks_config st st0 Hinit Hrel)
    as (r & st2 & _ & Hbody).
  fold body in Hbody.
  assert (resources (reconcile w vm neo4j body st).2 = (Released, Released))
    as [= Hfile Hdir].
  { unfold reconcile. rewrite Hbody.
    destruct r as [[]|e]; [by rewrite keeps_resources_push_updates|].
    destruct (is_interrupt e); [|done].
    rewrite (keeps_bind resources); [done|apply keeps_resources_rollback|].
    intros _. apply keeps_resources_push_updates. }
  rewrite Hbody. simpl. eauto 10.
Qed.

Lemma context_released_on_every_exit_witness :
  tmp_dir (reconcile interrupted "win10" (PDict [])
             (capture_body interrupted "win10" system_uri (with_delay 180))
             idle).2 = Released ∧
  tmp_file (reconcile interrupted "win10" (PDict [])
              (capture_body interrupted "win10" system_uri (with_delay 180))
              idle).2 = Released.
Proof.
  apply (context_released_on_every_exit interrupted "win10" system_uri
           (with_delay 180) (PDict []) idle
           (factory_init interrupted "win10" system_uri idle).2).
  - reflexivity.
  - intros history. split; reflexivity.
Defined.

(** ** Reconciling the ledger *)

(** C6, as amended.  An exception of the [try] body other than
    KeyboardInterrupt leaves capture_main as it is, from the state the body
    left: nothing runs after the failure, so no rollback and no push; the
    session made no call to the store since the body began, and with hooks
    that do not write to the store the store is the one the body started on,
    the entity in it.  When the factory had been built, that is when the
    failure came from inside the [with] body, the context was released
    before the exception left. *)
Theorem failure_propagates_without_rollback
    w vm uri hooks_config neo4j e st st1 :
  is_interrupt e = false ->
  capture_body w vm uri hooks_config st = (Raise e, st1) ->
  let session := reconcile w vm neo4j (capture_body w vm uri hooks_config) in
  session st = (Raise e, st1) ∧
  Forall off_ledger (calls_of session st) ∧
  (hooks_inert w -> store st1 = store st) ∧
  (forall st0,
     factory_init w vm uri st = (Ok tt, st0) -> release_returns w ->
     (exists calls, trace st1 = calls ++ [StorageCleanup; TmpClose]) ∧
     tmp_dir st1 = Released ∧ tmp_file st1 = Released).
Proof.
  intros Hother Hbody session.
  assert (session st = (Raise e, st1)) as Hsession
    by (unfold session, reconcile; by rewrite Hbody, Hother).
  split; [done|]. split; [|split].
  - pose proof (only_calls_of off_ledger _ st
                  (capture_body_off_ledger w vm uri hooks_config)) as Hcalls.
    unfold calls_of in *. by rewrite Hsession, <- Hbody.
  - intros Hinert.
    pose proof (keeps_store_capture_body w vm uri hooks_config Hinert st) as H.
    by rewrite Hbody in H.
  - intros st0 Hinit Hrel.
    destruct (capture_body_releases w vm uri hooks_config st st0 Hinit Hrel)
      as (r & st2 & _ & Hrun).
    rewrite Hbody in Hrun. injection Hrun as _ ->. simpl. eauto.
Qed.

Lemma failure_propagates_without_rollback_witness :
  reconcile hook_fails "win10" (PDict bound_win10)
    (capture_body hook_fails "win10" system_uri (with_delay 180))
    entered_win10
  = (Raise (ExternalError "hook"),
     (capture_body hook_fails "win10" system_uri (with_delay 180)
        entered_win10).2) ∧
  store (capture_body hook_fails "win10" system_uri (with_delay 180)
           entered_win10).2 = graph_create "win10" empty_graph.
Proof.
  destruct (failure_propagates_without_rollback hook_fails "win10" system_uri
              (with_delay 180) (PDict bound_win10) (ExternalError "hook")
              entered_win10
              (capture_body hook_fails "win10" system_uri (with_delay 180)
                 entered_win10).2)
    as (Hsession & _ & Hstore & _); [reflexivity|reflexivity|].
  split; [exact Hsession|].
  apply Hstore. intros history c g. reflexivity.
Defined.

(** C6, as the claim has it, fails for a provisioning error: the exception
    leaves the session and the entity stays, but no release has run, the
    temporary file of line 34 still open. *)
Lemma provisioning_error_skips_release :
  (reconcile hypervisor_unreachable "win10" (PDict bound_win10)
     (capture_body hypervisor_unreachable "win10" system_uri (with_delay 180))
     entered_win10)
  = (Raise (ExternalError "hypervisor unreachable"),
     State [NamedTemporaryFile; LibvirtOpen system_uri]
           (graph_create "win10" empty_graph) Live Absent).
Proof. reflexivity. Qed.

(** C3, as amended.  For a name the store reads as a string literal: when
    the [try] body ends by KeyboardInterrupt and the entity of this session
    is in the [neo4j] dictionary, the handler deletes the subgraph and the
    session ends normally with a store that holds no OS node of the name
    and no node that was joined to one when the interrupt came.  When the
    store at the interrupt is the store as it was just before the entity
    was created, with the entity added to it, the final store is that
    earlier store again: the store the admission left, in which a replace
    has already deleted the previous capture. *)
Theorem interrupt_rolls_back
    w vm uri hooks_config (neo4j : pdict) on identity st st1 :
  reads_name w vm ->
  dict_get "enabled" neo4j = Some on -> truthy on = true ->
  dict_get "OS" neo4j = Some (POS identity) ->
  dict_get "graph" neo4j = Some PGraph ->
  capture_body w vm uri hooks_config st = (Raise KeyboardInterrupt, st1) ->
  ledger_reachable w ->
  push_adds_nothing w ->
  let session :=
    reconcile w vm (PDict neo4j) (capture_body w vm uri hooks_config) in
  (session st).1 = Ok tt ∧
  RunSubgraphDelete vm ∈ calls_of session st ∧
  (forall n, n ∈ nodes (store (session st).2) -> os_named vm n = false) ∧
  (forall n, n ∈ nodes (store (session st).2) ->
     n ∈ nodes (store st1) ∧
     ¬ ∃ o, o ∈ nodes (store st1) ∧ os_named vm o = true ∧
            joined (store st1) (nid o) (nid n)) ∧
  (forall before,
     store st1 = graph_create vm before ->
     entities (os_named vm) before = 0%nat ->
     fresh_id before ∉ endpoints before ->
     (forall g, push_store w identity g = g) ->
     store (session st).2 = before).
Proof.
  intros Hreads Hon Htruthy Hos Hgraph Hbody Hreach Hpush session.
  assert (session st =
            (Ok tt,
             State (trace st1 ++
                      [Log WARNING "SIGINT received";
                       Log INFO "cleanup: removing OS node";
                       RunSubgraphDelete vm; GraphPush identity])
                   (push_store w identity
                      (subgraph_delete_os (os_named vm) (store st1)))
                   (tmp_file st1) (tmp_dir st1))) as Hsession.
  { rewrite <- (run_subgraph_delete_named w) by done.
    unfold session, reconcile. rewrite Hbody. simpl.
    unfold rollback, push_updates. run_step.
    rewrite Hon. simpl. rewrite Htruthy. simpl. rewrite Hgraph, Hos. simpl.
    run_with Hreach.
    unfold set_store, record. simpl. by rewrite <- !app_assoc. }
  split; [by rewrite Hsession|]. split; [|split; [|split]].
  - destruct (capture_body_off_ledger w vm uri hooks_config st)
      as (added & Htrace & _).
    rewrite Hbody in Htrace. simpl in Htrace.
    unfold calls_of. rewrite Hsession. simpl.
    rewrite Htrace, <- app_assoc, drop_app_length.
    apply list_elem_of_In, in_or_app. right. simpl. auto.
  - rewrite Hsession. simpl. intros n Hn%Hpush.
    apply elem_of_subgraph_delete_os in Hn as [Hn Hfar].
    destruct (os_named vm n) eqn:Hnamed; [|done].
    destruct Hfar. exists n. split; [done|]. split; [done|constructor].
  - rewrite Hsession. simpl. intros n Hn%Hpush.
    by apply elem_of_subgraph_delete_os in Hn.
  - rewrite Hsession. simpl. intros before -> Hnone Hloose ->.
    by apply subgraph_delete_os_fresh; [|apply os_named_new|].
Qed.

Lemma interrupt_rolls_back_witness :
  (reconcile interrupted "win10" (PDict bound_win10)
     (capture_body interrupted "win10" system_uri (with_delay 180))
     entered_win10).1 = Ok tt ∧
  RunSubgraphDelete "win10" ∈
    calls_of (reconcile interrupted "win10" (PDict bound_win10)
                (capture_body interrupted "win10" system_uri (with_delay 180)))
             entered_win10.
Proof.
  destruct (interrupt_rolls_back interrupted "win10" system_uri
              (with_delay 180) bound_win10 (PBool true) 1%nat entered_win10
              (capture_body interrupted "win10" system_uri (with_delay 180)
                 entered_win10).2)
    as (Hok & Hcall & _ & _ & _);
    [intros n; split; reflexivity
    |reflexivity|reflexivity|reflexivity|reflexivity|reflexivity
    |intros history c Hc; destruct c; (reflexivity || discriminate Hc)
    |intros identity g n Hn; exact Hn|].
  split; [exact Hok|exact Hcall].
Defined.

(** C3, as the claim has it, fails after a replace: the previous capture of
    win10 is deleted before the [try], the interrupt removes the new entity,
    and the session ends on a store that is not the one it started on. *)
Lemma interrupted_replace_loses_previous_capture :
  store (capture_main interrupted_replace win10 (holding captured_before)).2
    = Graph [Node 3 true "win7"] [] ∧
  store (capture_main interrupted_replace win10 (holding captured_before)).2
    <> captured_before.
Proof.
  assert (store (capture_main interrupted_replace win10
                   (holding captured_before)).2
          = Graph [Node 3 true "win7"] []) as Hfinal
    by (vm_compute; reflexivity).
  split; [exact Hfinal|]. rewrite Hfinal. discriminate.
Qed.

(** The same interrupt seen from capture_main, on an empty store: the
    entity is created, the wait is interrupted, and the session ends with
    the store empty again and the context released. *)
Example interrupted_session_leaves_no_entity :
  capture_main interrupted win10 idle =
    (Ok tt,
     State (loading win10 ++ connecting false ++
            admission_calls "win10" false false ++
            [NamedTemporaryFile; LibvirtOpen "qemu:///system";
             LookupByName "win10"; XMLDesc; TmpWrite; TmpFlush;
             GetHardDrivePath; TemporaryDirectory; ContextFactoryInit;
             EnvironmentInit
               (PDict
                  [("configuration",
                    PDict
                      [("neo4j",
                        PDict [("enabled", PBool true);
                               ("replace", PBool false);
                               ("OS", POS 1); ("graph", PGraph)]);
                       ("desktop_ready_delay", PInt 180);
                       ("domain_name", PStr "win10");
                       ("debug", PBool false)])]);
             EnvironmentEnter; Log INFO "Capturing %s";
             Trigger "protocol_start"; Trigger "offline";
             Log INFO "Starting the domain"; Poweron;
             Log DEBUG "Waiting %d seconds for desktop to be ready";
             Sleep 180; EnvironmentExit; StorageCleanup; TmpClose;
             Log WARNING "SIGINT received";
             Log INFO "cleanup: removing OS node";
             RunSubgraphDelete "win10"; GraphPush 1])
           empty_graph Released Released).
Proof. vm_compute. reflexivity. Qed.

(** ** The admission policy *)

(** Lines 144-170 on a store that answers. *)
Lemma ledger_admission_run w vm (neo4j : pdict) st :
  ledger_reachable w ->
  let g0 := if flag "delete" neo4j then empty_graph else store st in
  let existing := is_some (os_match_first (os_found w vm) g0) in
  let replace := flag "replace" neo4j in
  let g1 := cleared (os_rooted w vm) existing g0 in
  ledger_admission w vm (PDict neo4j) st =
    (Ok (if existing && negb replace then None
         else Some (PDict (bound (fresh_id g1) neo4j))),
     State (trace st ++ connecting (flag "delete" neo4j) ++
              admission_calls vm replace existing)
           (if existing && negb replace then g0 else graph_create vm g1)
           (tmp_file st) (tmp_dir st)).
Proof.
  intros Hreach. simpl.
  unfold ledger_admission, match_first, create_os, run_subgraph_delete, flag.
  run_with Hreach.
  destruct (dict_get "delete" neo4j) as [dv|]; [destruct (truthy dv)|];
    run_with Hreach;
    (destruct (dict_get "replace" neo4j) as [rv|]; [destruct (truthy rv)|]);
    run_with Hreach.
  all: try match goal with
       | |- context [os_match_first ?v ?g] =>
           destruct (os_match_first v g) eqn:Hfound
       end; run_with Hreach; rewrite ?Hfound; run_with Hreach.
  all: unfold cleared, bound, set_store, record, connecting, admission_calls;
    simpl; rewrite <- ?app_assoc; simpl; try reflexivity.
Qed.



Lemma filter_none {A} (f : A -> bool) (l : list A) :
  (forall x, In x l -> f x = false) -> List.filter f l = [].
Proof.
  induction l as [|x l IH]; simpl; [done|]. intros Hall.
  rewrite (Hall x) by auto. apply IH. auto.
Qed.


Lemma entities_subgraph_delete_os sel g :
  entities sel (subgraph_delete_os sel g) = 0%nat.
Proof.
  unfold entities. rewrite filter_none; [done|].
  intros n [Hn Hfar]%list_elem_of_In%elem_of_subgraph_delete_os.
  destruct (sel n) eqn:Hnamed; [|done].
  destruct Hfar. exists n. split; [done|]. split; [done|constructor].
Qed.







(** The replace flag on the same store: the capture of win10 and its
    evidence node go, the capture of win7 stays, and the fresh entity is
    in the store the protocol starts on. *)
Example replace_session_store :
  store (capture_main (calm (Parsed (ledger_on true))) win10
           (holding captured_before)).2
  = Graph [Node 3 true "win7"; Node 4 true "win10"] [].
Proof. vm_compute. reflexivity. Qed.

(** ** Provisioning failures *)

(** C5.  What the code does on the three provisioning failures: the
    exception of the collaborator leaves the [with] statement carrying its
    cause, but the temporary file of line 34 is still open when it does,
    and nothing has closed it by the end of capture_body: [__exit__] is never
    entered and [__init__] has no handler of its own.  The temporary
    directory is not yet created at any of the three. *)
Theorem provision_failure_leaves_tmp_file :
  capture_body hypervisor_unreachable "win10" system_uri (with_delay 180) idle
  = (Raise (ExternalError "hypervisor unreachable"),
     State [NamedTemporaryFile; LibvirtOpen system_uri]
           empty_graph Live Absent) ∧
  capture_body domain_not_found "win10" system_uri (with_delay 180) idle
  = (Raise (ExternalError "domain not found"),
     State [NamedTemporaryFile; LibvirtOpen system_uri; LookupByName "win10"]
           empty_graph Live Absent) ∧
  capture_body disk_unresolvable "win10" system_uri (with_delay 180) idle
  = (Raise (ExternalError "disk path not resolvable"),
     State [NamedTemporaryFile; LibvirtOpen system_uri; LookupByName "win10";
            XMLDesc; TmpWrite; TmpFlush; GetHardDrivePath]
           empty_graph Live Absent).
Proof. repeat split. Qed.

(** * More of capture.py *)

(** ** Resolving the configuration, continued *)

Lemma dict_set_same k v (d : pdict) :
  dict_get k d = Some v -> dict_set k v d = d.
Proof.
  induction d as [|[k0 v0] d IH]; simpl; [done|].
  destruct (String.eqb k k0) eqn:Hk.
  - apply String.eqb_eq in Hk as ->. by intros [= ->].
  - intros H. by rewrite IH.
Qed.

(** When lines 129-139 go through, the document was an object whose
    'configuration', if any, was an object, and the result is that document
    with the resolved configuration object stored in it. *)
Lemma resolve_config_ok vm dbg doc resolved :
  resolve_config vm dbg doc = Ok resolved ->
  exists kvs cfg,
    doc = PDict kvs ∧
    (dict_get "configuration" kvs = Some (PDict cfg) ∨
     (dict_get "configuration" kvs = None ∧ cfg = [])) ∧
    resolved =
      PDict (dict_set "configuration"
               (PDict (resolved_configuration vm dbg cfg)) kvs).
Proof.
  destruct doc as [| | |s|xs|kvs| |]; try discriminate.
  - cbv [resolve_config set_config_key rbind py_contains py_getitem py_setitem].
    by destruct (String.index _ _ s).
  - cbv [resolve_config set_config_key rbind py_contains py_getitem py_setitem].
    by destruct (existsb _ xs).
  - cbv [resolve_config set_config_key rbind py_contains py_getitem py_setitem
           resolved_configuration].
    destruct (dict_get "configuration" kvs) as [c|] eqn:Hc.
    + rewrite Hc.
      destruct c as [| | | s|xs|cfg| |]; try discriminate.
      * destruct (String.index _ _ s); [|discriminate].
        rewrite Hc. discriminate.
      * destruct (existsb _ xs); [|discriminate].
        rewrite Hc. discriminate.
      * intros Hres. exists kvs, cfg. split; [done|]. split; [by left|].
        revert Hres.
        destruct (dict_get "desktop_ready_delay" cfg) as [d|];
          repeat first [rewrite Hc | rewrite dict_get_set_eq
                       | rewrite dict_set_set | progress cbv beta iota];
          by intros [= <-].
    + intros Hres. exists kvs, []. split; [done|]. split; [by right|].
      revert Hres.
      repeat first [rewrite dict_get_set_eq | rewrite dict_set_set
                   | progress cbn [dict_get String.eqb Ascii.eqb Bool.eqb]
                   | progress cbv beta iota].
      by intros [= <-].
Qed.

Lemma dict_get_set k k' v (d : pdict) :
  dict_get k (dict_set k' v d) =
    if String.eqb k k' then Some v else dict_get k d.
Proof.
  destruct (String.eqb k k') eqn:Hk.
  - apply String.eqb_eq in Hk as ->. apply dict_get_set_eq.
  - apply String.eqb_neq in Hk. by apply dict_get_set_ne.
Qed.

Lemma resolved_configuration_get vm dbg cfg k :
  dict_get k (resolved_configuration vm dbg cfg) =
    if String.eqb k "debug" then Some (PBool dbg)
    else if String.eqb k "domain_name" then Some (PStr vm)
    else if String.eqb k "desktop_ready_delay" then
      match dict_get "desktop_ready_delay" cfg with
      | Some d => Some d
      | None => Some (PInt DESKTOP_READY_DELAY)
      end
    else dict_get k cfg.
Proof.
  unfold resolved_configuration. rewrite !dict_get_set.
  destruct (String.eqb k "debug"); [done|].
  destruct (String.eqb k "domain_name"); [done|].
  destruct (dict_get "desktop_ready_delay" cfg) as [d|] eqn:Hd.
  - destruct (String.eqb k "desktop_ready_delay") eqn:Hk; [|done].
    by apply String.eqb_eq in Hk as ->.
  - by rewrite dict_get_set.
Qed.

(** X1.  Whenever resolving succeeds, the configuration object handed on
    carries the VM name and the debug flag of the command line, whatever the
    file said under 'domain_name' and 'debug', and a delay: the one of the
    file when it had one. *)
Theorem resolve_config_injects vm dbg doc resolved :
  resolve_config vm dbg doc = Ok resolved ->
  exists cfg',
    py_getitem "configuration" resolved = Ok (PDict cfg') ∧
    dict_get "domain_name" cfg' = Some (PStr vm) ∧
    dict_get "debug" cfg' = Some (PBool dbg) ∧
    (exists delay, dict_get "desktop_ready_delay" cfg' = Some delay) ∧
    (forall cfg delay,
       py_getitem "configuration" doc = Ok (PDict cfg) ->
       dict_get "desktop_ready_delay" cfg = Some delay ->
       dict_get "desktop_ready_delay" cfg' = Some delay).
Proof.
  intros (kvs & cfg & -> & Hshape & ->)%resolve_config_ok.
  exists (resolved_configuration vm dbg cfg).
  split; [simpl; by rewrite dict_get_set_eq|].
  rewrite !resolved_configuration_get. simpl.
  split; [done|]. split; [done|]. split.
  - destruct (dict_get "desktop_ready_delay" cfg); eauto.
  - intros cfg0 delay Hcfg0 Hdelay. simpl in Hcfg0.
    destruct Hshape as [Hsome|[Hnone _]].
    + rewrite Hsome in Hcfg0. injection Hcfg0 as <-. by rewrite Hdelay.
    + by rewrite Hnone in Hcfg0.
Qed.

Lemma resolve_config_injects_witness :
  dict_get "domain_name"
    [("domain_name", PStr "win10"); ("debug", PBool false);
     ("desktop_ready_delay", PInt 5)] = Some (PStr "win10").
Proof.
  destruct (resolve_config_injects "win10" false user_written
              (PDict [("configuration",
                       PDict [("domain_name", PStr "win10");
                              ("debug", PBool false);
                              ("desktop_ready_delay", PInt 5)]);
                      ("hooks", PList [PStr "filesystem"])]))
    as (cfg' & Hcfg & Hname & _); [reflexivity|].
  injection Hcfg as <-. exact Hname.
Defined.

(** X2.  Resolving touches nothing else: every top-level key other than
    'configuration' reads as in the file, and so does every key of the
    configuration object other than the three that are written. *)
Theorem resolve_config_keeps_other_keys vm dbg doc resolved :
  resolve_config vm dbg doc = Ok resolved ->
  (forall k, k <> "configuration" ->
     py_getitem k resolved = py_getitem k doc) ∧
  (forall cfg cfg' k,
     py_getitem "configuration" doc = Ok (PDict cfg) ->
     py_getitem "configuration" resolved = Ok (PDict cfg') ->
     is_injected_key k = false ->
     dict_get k cfg' = dict_get k cfg).
Proof.
  intros (kvs & cfg & -> & Hshape & ->)%resolve_config_ok. split.
  - intros k Hk. simpl. by rewrite dict_get_set_ne.
  - intros cfg0 cfg' k Hcfg0 Hcfg' Hk. simpl in Hcfg0, Hcfg'.
    rewrite dict_get_set_eq in Hcfg'. injection Hcfg' as <-.
    destruct Hshape as [Hsome|[Hnone _]]; [|by rewrite Hnone in Hcfg0].
    rewrite Hsome in Hcfg0. injection Hcfg0 as <-.
    rewrite resolved_configuration_get.
    unfold is_injected_key in Hk.
    apply orb_false_elim in Hk as [[Hd Hn]%orb_false_elim Hb].
    by rewrite Hb, Hn, Hd.
Qed.

Lemma resolve_config_keeps_other_keys_witness :
  py_getitem "hooks"
    (PDict [("configuration",
             PDict [("domain_name", PStr "win10"); ("debug", PBool false);
                    ("desktop_ready_delay", PInt 5)]);
            ("hooks", PList [PStr "filesystem"])])
  = py_getitem "hooks" user_written.
Proof.
  destruct (resolve_config_keeps_other_keys "win10" false user_written
              (PDict [("configuration",
                       PDict [("domain_name", PStr "win10");
                              ("debug", PBool false);
                              ("desktop_ready_delay", PInt 5)]);
                      ("hooks", PList [PStr "filesystem"])]))
    as [Htop _]; [reflexivity|].
  apply Htop. discriminate.
Defined.

(** X3.  Resolving raises TypeError on every document that is not an
    object, and on every object whose 'configuration' is not an object:
    the code checks neither before it subscripts. *)
Theorem resolve_config_type_errors vm dbg :
  (forall doc, is_dict doc = false ->
     resolve_config vm dbg doc = Raise TypeError) ∧
  (forall kvs c,
     dict_get "configuration" kvs = Some c -> is_dict c = false ->
     resolve_config vm dbg (PDict kvs) = Raise TypeError).
Proof.
  split.
  - intros doc Hdoc.
    destruct doc as [| | |s|xs|kvs| |]; try discriminate; try reflexivity;
      cbv [resolve_config set_config_key rbind py_contains py_getitem
             py_setitem].
    + by destruct (String.index _ _ s).
    + by destruct (existsb _ xs).
  - intros kvs c Hc Hnot.
    cbv [resolve_config set_config_key rbind py_contains py_getitem py_setitem].
    destruct c as [| | |s|xs|cfg| |]; try discriminate;
      repeat first [rewrite Hc | progress cbv beta iota]; try reflexivity.
    + destruct (String.index _ _ s);
        by repeat first [rewrite Hc | progress cbv beta iota].
    + destruct (existsb _ xs);
        by repeat first [rewrite Hc | progress cbv beta iota].
Qed.

(** X4.  Resolving is idempotent: a configuration that came out of lines
    129-139 goes through them again unchanged. *)
Theorem resolve_config_idempotent vm dbg doc resolved :
  resolve_config vm dbg doc = Ok resolved ->
  resolve_config vm dbg resolved = Ok resolved.
Proof.
  intros (kvs & cfg & -> & _ & ->)%resolve_config_ok.
  pose proof (resolved_configuration_get vm dbg cfg "desktop_ready_delay")
    as Hdelay.
  pose proof (resolved_configuration_get vm dbg cfg "domain_name") as Hname.
  pose proof (resolved_configuration_get vm dbg cfg "debug") as Hdebug.
  simpl in Hdelay, Hname, Hdebug.
  set (cfg' := resolved_configuration vm dbg cfg) in *.
  assert (exists d, dict_get "desktop_ready_delay" cfg' = Some d) as [d Hd]
    by (rewrite Hdelay; destruct (dict_get _ cfg); eauto).
  cbv [resolve_config set_config_key rbind py_contains py_getitem py_setitem].
  repeat first [rewrite dict_get_set_eq | rewrite Hd | rewrite dict_set_set
               | rewrite (dict_set_same "domain_name" _ cfg' Hname)
               | rewrite (dict_set_same "debug" _ cfg' Hdebug)
               | progress cbv beta iota].
  done.
Qed.

Lemma resolve_config_idempotent_witness :
  resolve_config "win10" false
    (PDict [("configuration",
             PDict [("desktop_ready_delay", PInt 180);
                    ("domain_name", PStr "win10"); ("debug", PBool false)])])
  = Ok (PDict [("configuration",
                PDict [("desktop_ready_delay", PInt 180);
                       ("domain_name", PStr "win10");
                       ("debug", PBool false)])]).
Proof.
  apply (resolve_config_idempotent "win10" false (PDict [])). reflexivity.
Defined.

(** ** The protocol driver, continued *)

Ltac split_raises :=
  repeat match goal with
         | |- context [raises ?w ?h ?c] => destruct (raises w h c); simpl
         end.

(** X5.  No skipping and no repeats, whatever the hooks do: in every world
    the calls of the driver are an initial part of the run its delay
    selects, and the whole of it when the driver returns. *)
Theorem protocol_calls_prefix w hooks_config config d st :
  py_getitem "configuration" hooks_config = Ok config ->
  py_getitem "desktop_ready_delay" config = Ok (PInt d) ->
  (calls_of (protocol w hooks_config) st `prefix_of`
     (if 0 <? d then power_cycle_run d else short_run)) ∧
  ((protocol w hooks_config st).1 = Ok tt ->
   calls_of (protocol w hooks_config) st =
     (if 0 <? d then power_cycle_run d else short_run)).
Proof.
  intros Hcfg Hdelay. unfold calls_of, protocol. run_step.
  rewrite Hcfg. simpl. unfold see_call, ext. simpl.
  destruct (raises w (trace st) (Trigger "protocol_start")); simpl;
    [rewrite drop_app_length; split;
       [destruct (0 <? d); by eexists|discriminate]|].
  destruct (raises w _ (Trigger "offline")); simpl;
    [rewrite <- ?app_assoc, drop_app_length; split;
       [destruct (0 <? d); by eexists|discriminate]|].
  rewrite Hdelay. simpl.
  destruct (0 <? d); simpl; split_raises;
    rewrite <- ?app_assoc, drop_app_length; simpl;
    (split; [by eexists|first [discriminate|done]]).
Qed.

Lemma protocol_calls_prefix_witness :
  calls_of (protocol (failing is_sleep KeyboardInterrupt Missing)
              (with_delay 180)) idle
  `prefix_of` power_cycle_run 180.
Proof.
  apply (protocol_calls_prefix (failing is_sleep KeyboardInterrupt Missing)
           (with_delay 180) (PDict [("desktop_ready_delay", PInt 180)])
           180 idle); reflexivity.
Defined.

(** X6.  The driver has no handler around the power cycle: when the wait
    or the desktop_ready point raises, the exception leaves protocol() with
    the context powered on, poweroff and protocol_end never called. *)
Theorem protocol_failure_leaves_power_on w hooks_config config d failed e st :
  py_getitem "configuration" hooks_config = Ok config ->
  py_getitem "desktop_ready_delay" config = Ok (PInt d) ->
  0 < d ->
  failed = Sleep d ∨ failed = Trigger "desktop_ready" ->
  (forall history, raises w history failed = Some e) ->
  (forall history c,
     is_protocol_call c = true -> c <> failed -> raises w history c = None) ->
  (protocol w hooks_config st).1 = Raise e ∧
  calls_of (protocol w hooks_config) st = powered_run d failed ∧
  Poweron ∈ calls_of (protocol w hooks_config) st ∧
  (Poweroff ∉ calls_of (protocol w hooks_config) st) ∧
  (Trigger "protocol_end" ∉ calls_of (protocol w hooks_config) st).
Proof.
  intros Hcfg Hdelay Hd Hfailed Hraise Hquiet.
  assert ((0 <? d) = true) as Hpos by lia.
  assert ((protocol w hooks_config st).1 = Raise e ∧
          calls_of (protocol w hooks_config) st = powered_run d failed)
    as [Hres Hcalls].
  { unfold calls_of, protocol. run_step. rewrite Hcfg. simpl.
    unfold see_call, ext. simpl.
    destruct Hfailed as [-> | ->].
    - rewrite !Hquiet by (reflexivity || discriminate). simpl.
      rewrite Hdelay. simpl. rewrite Hpos. simpl.
      rewrite !Hquiet by (reflexivity || discriminate). simpl.
      rewrite Hraise. simpl.
      by rewrite <- ?app_assoc, drop_app_length.
    - rewrite !Hquiet by (reflexivity || discriminate). simpl.
      rewrite Hdelay. simpl. rewrite Hpos. simpl.
      rewrite !Hquiet by (reflexivity || discriminate). simpl.
      rewrite Hraise. simpl.
      by rewrite <- ?app_assoc, drop_app_length. }
  rewrite Hcalls. split; [done|]. split; [done|].
  destruct Hfailed as [-> | ->]; simpl;
    (split; [apply list_elem_of_In; simpl; tauto|]);
    split; intros H; apply list_elem_of_In in H; simpl in H;
    intuition discriminate.
Qed.

Lemma protocol_failure_leaves_power_on_witness :
  (protocol (failing is_long_wait KeyboardInterrupt Missing) (with_delay 180)
     idle).1 = Raise KeyboardInterrupt ∧
  calls_of (protocol (failing is_long_wait KeyboardInterrupt Missing)
              (with_delay 180)) idle
  = powered_run 180 (Sleep 180).
Proof.
  destruct (protocol_failure_leaves_power_on
              (failing is_long_wait KeyboardInterrupt Missing) (with_delay 180)
              (PDict [("desktop_ready_delay", PInt 180)]) 180 (Sleep 180)
              KeyboardInterrupt idle)
    as (Hres & Hcalls & _);
    [reflexivity|reflexivity|lia|left; reflexivity
    |intros history; reflexivity
    |intros history c Hc Hne; destruct c; try reflexivity;
     try discriminate Hc|].
  - simpl. destruct (Z.eqb_spec seconds 180) as [->|Hs];
      [by destruct Hne|reflexivity].
  - split; [exact Hres|exact Hcalls].
Defined.

(** X7.  The delay is read after the offline point and compared without a
    check of its type: with hooks that return, a delay that is missing or
    is not a number makes protocol() raise once protocol_start and offline
    have been delivered, and nothing is delivered after them. *)
Theorem protocol_bad_delay w hooks_config config e st :
  py_getitem "configuration" hooks_config = Ok config ->
  (let? delay := py_getitem "desktop_ready_delay" config in py_gt_zero delay)
    = Raise e ->
  protocol_undisturbed w ->
  (protocol w hooks_config st).1 = Raise e ∧
  calls_of (protocol w hooks_config) st = offline_run.
Proof.
  intros Hcfg Hbad Hq. unfold calls_of, protocol. run_step.
  rewrite Hcfg. simpl. unfold see_call. simpl.
  rewrite !Hq by reflexivity. simpl.
  unfold rbind in Hbad.
  destruct (py_getitem "desktop_ready_delay" config) as [delay|e0]; simpl.
  - rewrite Hbad. simpl. by rewrite <- ?app_assoc, drop_app_length.
  - injection Hbad as ->. by rewrite <- ?app_assoc, drop_app_length.
Qed.

Lemma protocol_bad_delay_witness :
  (protocol (calm Missing) with_text_delay idle).1 = Raise TypeError ∧
  calls_of (protocol (calm Missing) with_text_delay) idle = offline_run.
Proof.
  apply (protocol_bad_delay (calm Missing) with_text_delay
           (PDict [("desktop_ready_delay", PStr "180")]) TypeError idle);
    [reflexivity|reflexivity|intros history c _; reflexivity].
Defined.

(** ** The session, continued *)

Lemma push_updates_disabled w (neo4j : pdict) st :
  flag "enabled" neo4j = false -> push_updates w (PDict neo4j) st = (Ok tt, st).
Proof.
  unfold flag, push_updates. run_step.
  destruct (dict_get "enabled" neo4j) as [on|]; simpl;
    [intros ->|intros _]; done.
Qed.

Lemma rollback_disabled w vm (neo4j : pdict) st :
  flag "enabled" neo4j = false -> rollback w vm (PDict neo4j) st = (Ok tt, st).
Proof.
  unfold flag, rollback. run_step.
  destruct (dict_get "enabled" neo4j) as [on|]; simpl;
    [intros ->|intros _]; done.
Qed.

(** With the ledger off, lines 184-198 do nothing but swallow the
    interrupt. *)
Lemma reconcile_disabled w vm (neo4j : pdict) body st :
  flag "enabled" neo4j = false ->
  reconcile w vm (PDict neo4j) body st =
    match body st with
    | (Ok _, st1) => (Ok tt, st1)
    | (Raise e, st1) => if is_interrupt e then (Ok tt, st1) else (Raise e, st1)
    end.
Proof.
  intros Hoff. unfold reconcile. destruct (body st) as [[[]|e] st1].
  - by apply push_updates_disabled.
  - destruct (is_interrupt e); [|done].
    unfold bind. rewrite rollback_disabled by done.
    by apply push_updates_disabled.
Qed.

(** What capture_main comes to once the file is loaded and resolved and the
    ledger is off. *)
Lemma capture_main_disabled w args doc hooks_config cfg (neo4j : pdict) st :
  hooks_file w (plugins_configuration args) = Parsed doc ->
  resolve_config (vm_name args) (debug args) doc = Ok hooks_config ->
  py_getitem "configuration" hooks_config = Ok cfg ->
  py_get "neo4j" (PDict []) cfg = Ok (PDict neo4j) ->
  flag "enabled" neo4j = false ->
  capture_main w args st =
    bind (lift (sync_neo4j (PDict neo4j) hooks_config))
      (fun synced =>
         reconcile w (vm_name args) (PDict neo4j)
           (capture_body w (vm_name args) (connection args) synced))
      (State (trace st ++ loading args) (store st) (tmp_file st) (tmp_dir st)).
Proof.
  intros Hfile Hres Hcfg Hneo Hoff.
  unfold capture_main, load_hooks, bind at 1 2 3 4 5 6, note, lift.
  rewrite Hfile, Hres, Hcfg, Hneo. simpl.
  unfold flag in Hoff.
  destruct (dict_get "enabled" neo4j) as [on|]; [rewrite Hoff|];
    unfold bind at 1, ret, record, loading; simpl;
    by rewrite <- !app_assoc.
Qed.

(** X8.  With the ledger not enabled the session never calls the store:
    no connection, no query, no push, whatever the outcome of the capture;
    and with hooks that do not write to it the store is left as found. *)
Theorem ledger_disabled_no_store_call
    w args doc hooks_config cfg (neo4j : pdict) st :
  hooks_file w (plugins_configuration args) = Parsed doc ->
  resolve_config (vm_name args) (debug args) doc = Ok hooks_config ->
  py_getitem "configuration" hooks_config = Ok cfg ->
  py_get "neo4j" (PDict []) cfg = Ok (PDict neo4j) ->
  flag "enabled" neo4j = false ->
  Forall off_ledger (calls_of (capture_main w args) st) ∧
  (hooks_inert w -> store (capture_main w args st).2 = store st).
Proof.
  intros Hfile Hres Hcfg Hneo Hoff.
  unfold calls_of.
  rewrite (capture_main_disabled w args doc hooks_config cfg neo4j st)
    by done.
  unfold bind, lift.
  destruct (sync_neo4j (PDict neo4j) hooks_config) as [synced|e]; simpl.
  - rewrite reconcile_disabled by done.
    set (body := capture_body w (vm_name args) (connection args) synced).
    set (st' := State (trace st ++ loading args) (store st)
                      (tmp_file st) (tmp_dir st)).
    destruct (capture_body_off_ledger w (vm_name args) (connection args)
                synced st') as (added & Htrace & Hadded).
    assert (trace (body st').2 = trace st ++ loading args ++ added) as Hall
      by (unfold body; rewrite Htrace; simpl; by rewrite <- app_assoc).
    split.
    + destruct (body st') as [[[]|e] st1] eqn:Hbody; simpl in *;
        [|destruct (is_interrupt e)]; simpl; rewrite Hall, drop_app_length;
        repeat (constructor; [reflexivity|]); exact Hadded.
    + intros Hinert.
      pose proof (keeps_store_capture_body w (vm_name args) (connection args)
                    synced Hinert st') as Hstore. fold body in Hstore.
      destruct (body st') as [[[]|e] st1]; simpl in *;
        [|destruct (is_interrupt e)]; simpl; done.
  - split; [|done]. rewrite drop_app_length. by repeat constructor.
Qed.

Lemma ledger_disabled_no_store_call_witness :
  Forall off_ledger
    (calls_of (capture_main (calm (Parsed (with_delay 0))) win10) idle).
Proof.
  apply (ledger_disabled_no_store_call (calm (Parsed (with_delay 0))) win10
           (with_delay 0)
           (PDict [("configuration",
                    PDict [("desktop_ready_delay", PInt 0);
                           ("domain_name", PStr "win10");
                           ("debug", PBool false)])])
           (PDict [("desktop_ready_delay", PInt 0);
                   ("domain_name", PStr "win10"); ("debug", PBool false)])
           [] idle); reflexivity.
Defined.

(** X9.  A KeyboardInterrupt out of the [try] body never leaves
    capture_main when the store answers: with the ledger off the handler
    does nothing, with the entity stored it deletes and pushes, and either
    way the function then returns normally. *)
Theorem interrupt_never_leaves w vm (neo4j : pdict) body st st1 :
  neo4j_settled neo4j ->
  ledger_reachable w ->
  body st = (Raise KeyboardInterrupt, st1) ->
  (reconcile w vm (PDict neo4j) body st).1 = Ok tt.
Proof.
  intros Hsettled Hreach Hbody.
  destruct (flag "enabled" neo4j) eqn:Hon.
  - destruct Hsettled as [Hoff|(identity & Hos & Hgraph)]; [congruence|].
    unfold reconcile. rewrite Hbody. simpl.
    unfold rollback, push_updates, flag in *. run_step.
    destruct (dict_get "enabled" neo4j) as [on|]; [|done]. simpl.
    rewrite Hon. simpl. rewrite Hgraph, Hos. simpl.
    by run_with Hreach.
  - rewrite reconcile_disabled by done. by rewrite Hbody.
Qed.

Lemma interrupt_never_leaves_witness :
  (reconcile interrupted "win10" (PDict [])
     (capture_body interrupted "win10" system_uri (with_delay 180))
     idle).1 = Ok tt.
Proof.
  apply (interrupt_never_leaves interrupted "win10" []
           (capture_body interrupted "win10" system_uri (with_delay 180))
           idle
           (capture_body interrupted "win10" system_uri (with_delay 180)
              idle).2).
  - left. reflexivity.
  - intros history c Hc. destruct c; (reflexivity || discriminate Hc).
  - reflexivity.
Defined.

(** ** The context factory, continued *)

(** When [__init__] returns it has made its nine calls in order and holds
    both resources. *)
Lemma factory_init_ok w vm uri st st0 :
  factory_init w vm uri st = (Ok tt, st0) ->
  st0 = State (trace st ++ provisioning vm uri) (store st) Live Live.
Proof.
  unfold factory_init, get_hard_drive_path. run_step. unfold ext.
  split_raises; try discriminate.
  intros [= <-]. unfold set_tmp_dir, set_tmp_file, record. simpl.
  by rewrite <- !app_assoc.
Qed.

Lemma factory_init_tmp_file w vm uri st :
  raises w (trace st) NamedTemporaryFile = None ->
  tmp_file (factory_init w vm uri st).2 = Live.
Proof.
  intros Hfirst. unfold factory_init, get_hard_drive_path. run_step.
  unfold ext. rewrite Hfirst. simpl. by split_raises.
Qed.

Lemma factory_init_calls w vm uri :
  only (fun c => is_provisioning_call c = true) (factory_init w vm uri).
Proof. unfold factory_init, get_hard_drive_path. repeat only_step. Qed.

Lemma capture_body_before_exit w vm uri hooks_config :
  only before_close
    (bind (factory_init w vm uri) (fun _ => run_environment w hooks_config)).
Proof.
  unfold factory_init, get_hard_drive_path, run_environment, protocol.
  repeat only_step.
Qed.

(** X14.  Whenever [__init__] raises after line 34 has created the
    temporary file, at any of its later calls, the exception is the outcome
    of the [with] statement, the file is still open, and only calls of
    [__init__] were made: no environment, no trigger, no release. *)
Theorem provisioning_failure_stops_session w vm uri hooks_config e st :
  raises w (trace st) NamedTemporaryFile = None ->
  (factory_init w vm uri st).1 = Raise e ->
  (capture_body w vm uri hooks_config st).1 = Raise e ∧
  tmp_file (capture_body w vm uri hooks_config st).2 = Live ∧
  Forall (fun c => is_provisioning_call c = true)
    (calls_of (capture_body w vm uri hooks_config) st).
Proof.
  intros Hfirst Hfail.
  assert (capture_body w vm uri hooks_config st = factory_init w vm uri st)
    as Hsame.
  { unfold capture_body, bind.
    destruct (factory_init w vm uri st) as [[[]|e0] st0]; [discriminate|done]. }
  unfold calls_of. rewrite Hsame.
  split; [done|]. split; [by apply factory_init_tmp_file|].
  apply (only_calls_of _ (factory_init w vm uri) st), factory_init_calls.
Qed.

Lemma provisioning_failure_stops_session_witness :
  tmp_file (capture_body domain_not_found "win10" system_uri (with_delay 180)
              idle).2 = Live.
Proof.
  destruct (provisioning_failure_stops_session domain_not_found "win10"
              system_uri (with_delay 180) (ExternalError "domain not found")
              idle) as (_ & Hfile & _); [reflexivity|reflexivity|].
  exact Hfile.
Defined.

(** X10.  [__exit__] has no handler either: when the cleanup of the storage
    directory raises, that exception replaces whatever the body raised, an
    interrupt included, the temporary file is never closed, and, the
    exception not being KeyboardInterrupt, the session ends by it with no
    rollback. *)
Theorem cleanup_failure_masks w vm uri hooks_config neo4j e st st0 :
  factory_init w vm uri st = (Ok tt, st0) ->
  (forall history, raises w history StorageCleanup = Some e) ->
  is_interrupt e = false ->
  (reconcile w vm neo4j (capture_body w vm uri hooks_config) st).1 = Raise e ∧
  tmp_file (reconcile w vm neo4j (capture_body w vm uri hooks_config) st).2
    = Live ∧
  Forall before_close
    (calls_of (reconcile w vm neo4j (capture_body w vm uri hooks_config)) st).
Proof.
  intros Hinit Hcleanup Hother.
  pose proof (capture_body_before_exit w vm uri hooks_config st)
    as (added & Htrace & Hadded).
  pose proof (keeps_resources_run_environment w hooks_config st0) as Hkeep.
  unfold bind in Htrace. rewrite Hinit in Htrace.
  apply factory_init_ok in Hinit as Hst0.
  unfold calls_of, reconcile, capture_body, bind. rewrite Hinit.
  unfold with_exit.
  destruct (run_environment w hooks_config st0) as [r st2].
  simpl in Htrace, Hkeep.
  unfold factory_exit. run_step. unfold ext. rewrite Hcleanup. simpl.
  rewrite Hother. simpl.
  split; [done|]. split.
  - injection Hkeep as -> _. by rewrite Hst0.
  - rewrite Htrace, <- app_assoc, drop_app_length.
    apply Forall_app. split; [done|by repeat constructor].
Qed.

Lemma cleanup_failure_masks_witness :
  (reconcile (failing is_cleanup (ExternalError "rmtree") Missing) "win10"
     (PDict bound_win10)
     (capture_body (failing is_cleanup (ExternalError "rmtree") Missing)
        "win10" system_uri (with_delay 0))
     entered_win10).1 = Raise (ExternalError "rmtree").
Proof.
  apply (cleanup_failure_masks
           (failing is_cleanup (ExternalError "rmtree") Missing) "win10"
           system_uri (with_delay 0) (PDict bound_win10)
           (ExternalError "rmtree") entered_win10
           (factory_init (failing is_cleanup (ExternalError "rmtree") Missing)
              "win10" system_uri entered_win10).2);
    [reflexivity|intros history; reflexivity|reflexivity].
Defined.

(** X11.  Teardown runs inside out: when the environment was built and
    entered, and the exits return, the [with] statements end with the exit
    of the environment, then the cleanup of the storage directory, then the
    close of the configuration file, however the protocol ended. *)
Theorem teardown_order w vm uri hooks_config st st0 :
  factory_init w vm uri st = (Ok tt, st0) ->
  environment_returns w ->
  release_returns w ->
  exists calls,
    trace (capture_body w vm uri hooks_config st).2 =
      calls ++ [EnvironmentExit; StorageCleanup; TmpClose].
Proof.
  intros Hinit Henv Hrel.
  destruct (capture_body_releases w vm uri hooks_config st st0 Hinit Hrel)
    as (r & st2 & Hrun & ->). simpl.
  revert Hrun. unfold run_environment. run_step. unfold see_call at 1 2.
  rewrite !Henv by reflexivity. simpl. unfold with_exit.
  match goal with
  | |- context [let (_, _) := ?inner in _] => destruct inner as [ri sti]
  end.
  unfold see_call. rewrite Henv by reflexivity. simpl.
  intros [= _ <-]. simpl. exists (trace sti).
  by rewrite <- app_assoc.
Qed.

Lemma teardown_order_witness :
  exists calls,
    trace (capture_body hook_fails "win10" system_uri (with_delay 180)
             idle).2 =
      calls ++ [EnvironmentExit; StorageCleanup; TmpClose].
Proof.
  apply (teardown_order hook_fails "win10" system_uri (with_delay 180) idle
           (factory_init hook_fails "win10" system_uri idle).2).
  - reflexivity.
  - intros history c Hc. destruct c; (reflexivity || discriminate Hc).
  - intros history. split; reflexivity.
Defined.

(** ** The admission, continued *)

(** X12.  With the 'delete' key set the admission never skips and never
    runs the subgraph query: the store is wiped first, no entity of the name
    is found in it, and the session goes on with a store that holds only
    its own entity, at the first identity. *)
Theorem delete_flag_always_proceeds w vm (neo4j : pdict) st :
  flag "delete" neo4j = true ->
  ledger_reachable w ->
  ledger_admission w vm (PDict neo4j) st =
    (Ok (Some (PDict (bound 1 neo4j))),
     State (trace st ++ connecting true ++
              admission_calls vm (flag "replace" neo4j) false)
           (Graph [Node 1 true vm] []) (tmp_file st) (tmp_dir st)).
Proof.
  intros Hdelete Hreach.
  rewrite ledger_admission_run by done. by rewrite Hdelete.
Qed.

Lemma delete_flag_always_proceeds_witness :
  store (ledger_admission (calm Missing) "win10"
           (PDict [("enabled", PBool true); ("delete", PBool true)])
           (holding captured_before)).2
  = Graph [Node 1 true "win10"] [].
Proof.
  rewrite (delete_flag_always_proceeds (calm Missing) "win10"
             [("enabled", PBool true); ("delete", PBool true)]
             (holding captured_before));
    [reflexivity|reflexivity|intros history c _; reflexivity].
Defined.

(** X13.  When the admission lets the session go on, the [neo4j]
    dictionary it returns holds the graph handle and the entity, the entity
    is the node just created in the store, and, the dictionary being the
    one inside the hook configuration, the hooks find both under
    configuration.neo4j. *)
Theorem entity_reaches_hooks
    w vm (neo4j : pdict) bound_neo4j hooks_config cfg on st st1 :
  ledger_reachable w ->
  ledger_admission w vm (PDict neo4j) st = (Ok (Some bound_neo4j), st1) ->
  py_getitem "configuration" hooks_config = Ok cfg ->
  py_get "neo4j" (PDict []) cfg = Ok (PDict neo4j) ->
  dict_get "enabled" neo4j = Some on ->
  exists identity synced cfg',
    py_getitem "OS" bound_neo4j = Ok (POS identity) ∧
    py_getitem "graph" bound_neo4j = Ok PGraph ∧
    Node identity true vm ∈ nodes (store st1) ∧
    sync_neo4j bound_neo4j hooks_config = Ok synced ∧
    py_getitem "configuration" synced = Ok cfg' ∧
    py_getitem "neo4j" cfg' = Ok bound_neo4j.
Proof.
  intros Hreach Hrun Hcfg Hneo Hon.
  rewrite ledger_admission_run in Hrun by done.
  match type of Hrun with
  | context [if ?skip then None else _] => destruct skip; [discriminate|]
  end.
  injection Hrun as <- <-.
  match goal with
  | |- context [fresh_id ?g] => set (g1 := g)
  end.
  destruct hooks_config as [| | | | |top| |]; try discriminate.
  simpl in Hcfg. destruct (dict_get "configuration" top) eqn:Htop; [|done].
  injection Hcfg as ->.
  destruct cfg as [| | | | |inner| |]; try discriminate.
  simpl in Hneo. destruct (dict_get "neo4j" inner) eqn:Hinner;
    [|injection Hneo as <-; discriminate].
  exists (fresh_id g1), (PDict (dict_set "configuration"
                                  (PDict (dict_set "neo4j"
                                            (PDict (bound (fresh_id g1) neo4j))
                                            inner)) top)),
    (PDict (dict_set "neo4j" (PDict (bound (fresh_id g1) neo4j)) inner)).
  unfold bound. simpl.
  rewrite dict_get_set_ne, !dict_get_set_eq by discriminate.
  split; [done|]. split; [done|]. split.
  - apply list_elem_of_In, in_or_app. right. by left.
  - cbv [sync_neo4j set_config_key rbind py_getitem py_contains py_setitem].
    by rewrite Htop, Hinner.
Qed.

Lemma entity_reaches_hooks_witness :
  exists identity,
    Node identity true "win10" ∈
      nodes (store (ledger_admission (calm Missing) "win10"
                      (PDict [("enabled", PBool true)]) idle).2).
Proof.
  destruct (entity_reaches_hooks (calm Missing) "win10"
              [("enabled", PBool true)]
              (PDict (bound 1 [("enabled", PBool true)]))
              (PDict [("configuration",
                       PDict [("neo4j", PDict [("enabled", PBool true)])])])
              (PDict [("neo4j", PDict [("enabled", PBool true)])])
              (PBool true) idle
              (ledger_admission (calm Missing) "win10"
                 (PDict [("enabled", PBool true)]) idle).2)
    as (identity & _ & _ & _ & _ & Hnode & _);
    [intros history c _; reflexivity|reflexivity..|].
  exists identity. exact Hnode.
Defined.

(** ** The store, continued *)

Lemma grow_empty g : grow g ∅ = ∅.
Proof.
  apply set_eq. intros x. rewrite elem_of_grow. split; [|done].
  intros [Hx|(y & Hy & _)]; [done|]. by apply not_elem_of_empty in Hy.
Qed.

Lemma matched_unmatched sel g : entities sel g = 0%nat -> matched sel g = ∅.
Proof.
  intros Hnone%length_zero_iff_nil. unfold matched, os_roots.
  rewrite Hnone. simpl. apply grow_n_fixed, grow_empty.
Qed.

Lemma subgraph_delete_os_unmatched sel g :
  entities sel g = 0%nat -> subgraph_delete_os sel g = g.
Proof.
  destruct g as [ns rs]. intros Hnone. unfold subgraph_delete_os.
  rewrite matched_unmatched by done. simpl. f_equal.
  - apply list_filter_all, Forall_forall. intros n _.
    apply not_elem_of_empty.
  - apply list_filter_all, Forall_forall. intros r _.
    split; apply not_elem_of_empty.
Qed.

(** X15.  For a name the store reads as a string literal, the subgraph
    query as formatted is safe to run when the store holds no OS node of
    the name: it changes nothing; so running it twice in a row does what
    running it once does. *)
Theorem subgraph_delete_os_idempotent w vm g :
  reads_name w vm ->
  (entities (os_named vm) g = 0%nat -> run_subgraph_delete w vm g = g) ∧
  run_subgraph_delete w vm (run_subgraph_delete w vm g) =
    run_subgraph_delete w vm g.
Proof.
  intros Hreads. rewrite !(run_subgraph_delete_named w) by done. split.
  - apply subgraph_delete_os_unmatched.
  - apply subgraph_delete_os_unmatched, entities_subgraph_delete_os.
Qed.

Lemma subgraph_delete_os_idempotent_witness :
  run_subgraph_delete (calm Missing) "win10"
    (run_subgraph_delete (calm Missing) "win10" captured_before)
  = run_subgraph_delete (calm Missing) "win10" captured_before.
Proof.
  apply (subgraph_delete_os_idempotent (calm Missing) "win10" captured_before).
  intros n. split; reflexivity.
Defined.

Lemma well_formed_graph_create vm g :
  well_formed g -> well_formed (graph_create vm g).
Proof.
  intros [Hdup Hrels]. split.
  - unfold graph_create. simpl. rewrite map_app. simpl.
    apply NoDup_app. split; [done|]. split; [|apply NoDup_singleton].
    intros x (n & -> & Hn)%list_elem_of_fmap Hx%list_elem_of_singleton.
    apply nid_below_fresh_id in Hn. lia.
  - unfold graph_create. simpl. intros r Hr. rewrite map_app.
    destruct (Hrels r Hr) as [H1 H2].
    split; apply elem_of_app; by left.
Qed.

Lemma well_formed_subgraph_delete_os sel g :
  well_formed g -> well_formed (subgraph_delete_os sel g).
Proof.
  intros [Hdup Hrels]. split.
  - unfold subgraph_delete_os. simpl.
    eapply sublist_NoDup; [exact Hdup|].
    apply fmap_sublist, sublist_filter.
  - unfold subgraph_delete_os. simpl.
    intros r [[Hout1 Hout2] Hr]%list_elem_of_filter.
    destruct (Hrels r Hr) as [(n1 & Hn1 & Hin1)%list_elem_of_fmap
                              (n2 & Hn2 & Hin2)%list_elem_of_fmap].
    split; apply list_elem_of_fmap; [exists n1|exists n2];
      (split; [done|]); apply list_elem_of_filter; split; congruence.
Qed.

Lemma well_formed_fresh_loose g :
  well_formed g -> fresh_id g ∉ endpoints g.
Proof.
  intros [_ Hrels]. unfold endpoints.
  intros [H|H]%elem_of_union;
    apply elem_of_list_to_set, list_elem_of_fmap in H as (r & Heq & Hr);
    destruct (Hrels r Hr) as [(n1 & Hn1 & Hin1)%list_elem_of_fmap
                              (n2 & Hn2 & Hin2)%list_elem_of_fmap];
    apply nid_below_fresh_id in Hin1, Hin2; lia.
Qed.

(** X16.  The ledger operations keep the store well formed: after
    [graph.create] the identities are still unique, the fresh one
    included, and after the subgraph query, whatever its WHERE line
    selects, no relationship is left with a deleted node at an end. *)
Theorem ledger_operations_keep_well_formed vm selects g :
  well_formed g ->
  well_formed (graph_create vm g) ∧
  well_formed (subgraph_delete_os selects g).
Proof.
  intros Hwf. split;
    [by apply well_formed_graph_create
    |by apply well_formed_subgraph_delete_os].
Qed.

Lemma ledger_operations_keep_well_formed_witness :
  well_formed (graph_create "win10" captured_before) ∧
  well_formed (subgraph_delete_os (os_named "win10") captured_before).
Proof.
  apply (ledger_operations_keep_well_formed "win10" (os_named "win10")
           captured_before).
  split.
  - simpl. repeat constructor; intros H; apply list_elem_of_In in H;
      simpl in H; intuition discriminate.
  - intros r Hr. apply list_elem_of_In in Hr. simpl in Hr.
    destruct Hr as [<-|[]]. simpl.
    split; apply list_elem_of_In; simpl; auto.
Defined.

(** X17.  The query deletes whole connected parts, whatever its WHERE line
    selects: the two ends of a relationship are deleted together or not at
    all, so every relationship of the store either survives or loses both
    its end nodes, and no node that stays loses a neighbour. *)
Theorem subgraph_delete_os_whole_parts (selects : node -> bool) g r :
  r ∈ rels g ->
  (r.1 ∈ matched selects g ↔ r.2 ∈ matched selects g) ∧
  (r ∈ rels (subgraph_delete_os selects g) ∨
   forall n, n ∈ nodes (subgraph_delete_os selects g) ->
     nid n <> r.1 ∧ nid n <> r.2).
Proof.
  intros Hr.
  assert (r.1 ∈ matched selects g ↔ r.2 ∈ matched selects g) as Hboth.
  { destruct r as [a b]. simpl. rewrite !elem_of_matched.
    split; intros (o & Ho & Hnamed & Hj); exists o;
      (split; [done|]); (split; [done|]);
      (eapply joined_step; [exact Hj|]); [by left|by right]. }
  split; [done|].
  destruct (decide (r.1 ∈ matched selects g)) as [Hdead|Hkept].
  - right. intros n [Hout _]%list_elem_of_filter.
    split; intros Heq; apply Hout; rewrite Heq; [done|by apply Hboth].
  - left. apply list_elem_of_filter. split; [|done].
    split; [done|]. by rewrite <- Hboth.
Qed.

Lemma subgraph_delete_os_whole_parts_witness :
  (1%nat ∈ matched (os_named "win7") shared_evidence ↔
   2%nat ∈ matched (os_named "win7") shared_evidence).
Proof.
  apply (subgraph_delete_os_whole_parts (os_named "win7") shared_evidence
           (1, 2)%nat).
  apply list_elem_of_In. simpl. auto.
Defined.

(** X18.  On a well-formed store, and for a name the store reads as a
    string literal, the rollback undoes the creation and nothing else:
    creating the entity of a name the store does not hold and then running
    the subgraph query gives the store back; after a replace, it gives back
    the store without the previous capture, which the rollback does not
    restore. *)
Theorem rollback_undoes_create w vm g :
  reads_name w vm ->
  well_formed g ->
  (entities (os_named vm) g = 0%nat ->
   run_subgraph_delete w vm (graph_create vm g) = g) ∧
  run_subgraph_delete w vm (graph_create vm (run_subgraph_delete w vm g)) =
    run_subgraph_delete w vm g.
Proof.
  intros Hreads Hwf. rewrite !(run_subgraph_delete_named w) by done. split.
  - intros Hnone.
    by apply subgraph_delete_os_fresh;
      [|apply os_named_new|apply well_formed_fresh_loose].
  - apply subgraph_delete_os_fresh;
      [apply entities_subgraph_delete_os|apply os_named_new|].
    by apply well_formed_fresh_loose, well_formed_subgraph_delete_os.
Qed.

Lemma rollback_undoes_create_witness :
  run_subgraph_delete (calm Missing) "win10"
    (graph_create "win10"
       (run_subgraph_delete (calm Missing) "win10" captured_before))
  = run_subgraph_delete (calm Missing) "win10" captured_before.
Proof.
  apply (rollback_undoes_create (calm Missing) "win10" captured_before).
  - intros n. split; reflexivity.
  - split.
    + simpl. repeat constructor; intros H; apply list_elem_of_In in H;
        simpl in H; intuition discriminate.
    + intros r Hr. apply list_elem_of_In in Hr. simpl in Hr.
      destruct Hr as [<-|[]]. simpl.
      split; apply list_elem_of_In; simpl; auto.
Defined.

(** ** capture_main, continued *)

(** X19.  A hook configuration of the wrong shape ends the run before any
    resource is touched: when resolving raises, or when the 'neo4j' entry
    is not an object, so that line 143 raises AttributeError, the exception
    leaves capture_main with no call to the store and nothing provisioned. *)
Theorem capture_main_rejects_bad_shape w args doc e st :
  hooks_file w (plugins_configuration args) = Parsed doc ->
  resolve_config (vm_name args) (debug args) doc = Raise e ∨
  (exists hooks_config cfg entry,
     resolve_config (vm_name args) (debug args) doc = Ok hooks_config ∧
     py_getitem "configuration" hooks_config = Ok cfg ∧
     py_get "neo4j" (PDict []) cfg = Ok entry ∧
     is_dict entry = false ∧ e = AttributeError) ->
  capture_main w args st =
    (Raise e,
     State (trace st ++ loading args) (store st) (tmp_file st) (tmp_dir st)).
Proof.
  intros Hfile Hbad.
  unfold capture_main, load_hooks, bind, note, lift. rewrite Hfile.
  destruct Hbad as [Hres|(hooks_config & cfg & entry & Hres & Hcfg & Hneo
                          & Hentry & ->)]; rewrite Hres.
  - unfold record, loading. simpl. by rewrite <- !app_assoc.
  - rewrite Hcfg, Hneo.
    destruct entry; try discriminate; simpl;
      unfold record, loading; simpl; by rewrite <- !app_assoc.
Qed.

Lemma capture_main_rejects_bad_shape_witness :
  capture_main (calm (Parsed (PDict [("configuration",
                                      PDict [("neo4j", PInt 1)])])))
    win10 idle
  = (Raise AttributeError, State (loading win10) empty_graph Absent Absent).
Proof.
  apply (capture_main_rejects_bad_shape
           (calm (Parsed (PDict [("configuration",
                                  PDict [("neo4j", PInt 1)])])))
           win10
           (PDict [("configuration", PDict [("neo4j", PInt 1)])])
           AttributeError idle); [reflexivity|].
  right.
  exists (PDict [("configuration",
                  PDict [("neo4j", PInt 1);
                         ("desktop_ready_delay", PInt 180);
                         ("domain_name", PStr "win10");
                         ("debug", PBool false)])]),
    (PDict [("neo4j", PInt 1); ("desktop_ready_delay", PInt 180);
            ("domain_name", PStr "win10"); ("debug", PBool false)]),
    (PInt 1).
  repeat split.
Defined.

Lemma with_statement_off_ledger w hooks_config :
  only off_ledger (with_exit (factory_exit w) (run_environment w hooks_config)).
Proof.
  unfold factory_exit, run_environment, protocol. repeat only_step.
Qed.

(** X20.  No hook runs against a context that is not provisioned: in every
    world, if the [with] statement delivered a trigger at all, the nine calls
    of [__init__] came first, all of them, in order. *)
Theorem trigger_needs_provisioning w vm uri hooks_config point st :
  Trigger point ∈ calls_of (capture_body w vm uri hooks_config) st ->
  provisioning vm uri `prefix_of`
    calls_of (capture_body w vm uri hooks_config) st.
Proof.
  intros Hcall.
  destruct (factory_init w vm uri st) as [[[]|e] st0] eqn:Hinit.
  - apply factory_init_ok in Hinit as Hst0.
    destruct (with_statement_off_ledger w hooks_config st0)
      as (added & Htrace & _).
    unfold calls_of, capture_body, bind. rewrite Hinit, Htrace, Hst0. simpl.
    rewrite <- app_assoc, drop_app_length. by exists added.
  - assert (capture_body w vm uri hooks_config st = factory_init w vm uri st)
      as Hsame by (unfold capture_body, bind; by rewrite Hinit).
    pose proof (only_calls_of _ (factory_init w vm uri) st
                  (factory_init_calls w vm uri)) as Hkind.
    unfold calls_of in *. rewrite Hsame in Hcall.
    rewrite Forall_forall in Hkind. by apply Hkind in Hcall.
Qed.

Lemma trigger_needs_provisioning_witness :
  provisioning "win10" system_uri `prefix_of`
    calls_of (capture_body hook_fails "win10" system_uri (with_delay 180))
      idle.
Proof.
  apply (trigger_needs_provisioning hook_fails "win10" system_uri
           (with_delay 180) "protocol_start" idle).
  apply list_elem_of_In. vm_compute. tauto.
Defined.
